(** * Wishlist backend: sharing, purchase ledger and access policy

    A shallow embedding of the Go backend of tobratland/wishlist:
    the persisted entities of [backend/models], the route table of
    [backend/routes] and the handlers of [backend/controllers]
    ([CreateWishlist], [GetWishlist], [ShareWishlist], [AddItem],
    [PurchaseItem], [GetSharedWishlist]).

    The relational store is a record of tables; a handler is a function from
    the store, the request environment (generated uuids, clock, storage
    errors) and the gin context to a JSON response and the store after the
    request. *)

From Stdlib Require Import String List Bool ZArith Lia.
Import ListNotations.
Open Scope string_scope.
Open Scope list_scope.

#[local] Set Warnings "-register-all".

(** ** JSON values and HTTP responses *)

Inductive json : Type :=
| JNull
| JBool (b : bool)
| JString (s : string)
| JArray (elems : list json)
| JObject (fields : list (string * json)).

(** [gin.H] is [map[string]any]; it is written here as the list of its
    entries, in the order of the source literal. *)
Definition H := list (string * json).

Definition keys (h : H) : list string := map fst h.

Fixpoint get (k : string) (h : H) : option json :=
  match h with
  | [] => None
  | (k', v) :: h' => if String.eqb k k' then Some v else get k h'
  end.

Record Response : Type := JSON { status : nat; body : json }.

Definition StatusOK : nat := 200.
Definition StatusBadRequest : nat := 400.
Definition StatusUnauthorized : nat := 401.
Definition StatusForbidden : nat := 403.
Definition StatusNotFound : nat := 404.
Definition StatusInternalServerError : nat := 500.

Definition error (msg : string) : json := JObject [("error", JString msg)].

(** ** backend/models *)

(** [time.Time] as an instant on the integer line; [time.Time{}] is 0. *)
Definition Time := Z.
Definition zeroTime : Time := 0%Z.

Module Wishlist.
Record t : Type := Build {
  ID : string;
  UserID : string;
  Title : string;
  Description : string;
  CreatedAt : string
}.
End Wishlist.

Module Item.
Record t : Type := Build {
  ID : string;
  WishlistID : string;
  Name : string;
  Description : string;
  Purchased : bool;
  CreatedAt : string
}.
End Item.

Module Purchase.
Record t : Type := Build {
  ID : string;
  ItemID : string;
  UserID : string;
  PurchasedAt : string
}.
End Purchase.

Module Share.
Record t : Type := Build {
  ID : string;
  WishlistID : string;
  Token : string;
  CreatedAt : Time;
  ExpiresAt : Time
}.
End Share.

(** The tables behind [models.DB], rows in insertion order.  The [Items] of
    a wishlist and the [Purchases] of an item are not stored in the row:
    they are the has-many associations that [Preload] reads back. *)
Record DB : Type := mkDB {
  wishlists : list Wishlist.t;
  items : list Item.t;
  purchases : list Purchase.t;
  shares : list Share.t
}.

Definition emptyDB : DB := mkDB [] [] [] [].

Definition set_wishlists (db : DB) (ws : list Wishlist.t) : DB :=
  mkDB ws (items db) (purchases db) (shares db).
Definition set_items (db : DB) (its : list Item.t) : DB :=
  mkDB (wishlists db) its (purchases db) (shares db).
Definition set_purchases (db : DB) (ps : list Purchase.t) : DB :=
  mkDB (wishlists db) (items db) ps (shares db).
Definition set_shares (db : DB) (ss : list Share.t) : DB :=
  mkDB (wishlists db) (items db) (purchases db) ss.

(** ** The request environment

    What a handler draws from outside the store while it serves one
    request: the values of [uuid.New()] (numbered by call), the clock
    [time.Now()], the clock as text (as [time.Now().Format(time.RFC3339)]
    gives it), the text of a binding error, and which of the storage calls
    (numbered in program order) come back with an error. *)
Record Env : Type := mkEnv {
  uuid_New : nat -> string;
  time_Now : Time;
  time_text : string;
  bind_error : string;
  db_fails : nat -> bool
}.

(** The gin context key ["userID"]: [c.Get("userID")]. *)
Definition Context := option string.

(** ** Storage calls *)

Inductive QueryResult (A : Type) : Type :=
| Found (row : A)
| ErrRecordNotFound
| ErrStorage.
Arguments Found {A} row.
Arguments ErrRecordNotFound {A}.
Arguments ErrStorage {A}.

(** [DB.Where(cond).First(&row)].  Every caller either selects on a unique
    column or only tests whether a row exists, so the first match in table
    order stands for the first match in key order. *)
Definition First {A : Type} (cond : A -> bool) (table : list A) (fails : bool)
  : QueryResult A :=
  if fails then ErrStorage
  else match find cond table with
       | Some row => Found row
       | None => ErrRecordNotFound
       end.

(** [DB.Create(&row)]: the insert is refused when the storage call fails or
    a uniqueness constraint (primary key, unique column) is violated. *)
Definition Create {A : Type} (clash : A -> A -> bool) (table : list A) (row : A)
  (fails : bool) : option (list A) :=
  if fails || existsb (clash row) table then None else Some (table ++ [row]).

Definition wishlist_clash (a b : Wishlist.t) : bool :=
  String.eqb (Wishlist.ID a) (Wishlist.ID b).
Definition item_clash (a b : Item.t) : bool :=
  String.eqb (Item.ID a) (Item.ID b).
Definition purchase_clash (a b : Purchase.t) : bool :=
  String.eqb (Purchase.ID a) (Purchase.ID b).
Definition share_clash (a b : Share.t) : bool :=
  String.eqb (Share.ID a) (Share.ID b) || String.eqb (Share.Token a) (Share.Token b).

(** [DB.Model(&item).Update("purchased", true)]:
    UPDATE items SET purchased = true WHERE id = item.ID. *)
Definition mark_purchased (id : string) (it : Item.t) : Item.t :=
  if String.eqb (Item.ID it) id
  then Item.Build (Item.ID it) (Item.WishlistID it) (Item.Name it)
                  (Item.Description it) true (Item.CreatedAt it)
  else it.

Definition Update_purchased (table : list Item.t) (id : string) (fails : bool)
  : list Item.t :=
  if fails then table else map (mark_purchased id) table.

(** [Preload("Items")] and [Preload("Items.Purchases")]. *)
Definition Items (db : DB) (wishlistID : string) : list Item.t :=
  filter (fun it => String.eqb (Item.WishlistID it) wishlistID) (items db).

Definition Purchases (db : DB) (itemID : string) : list Purchase.t :=
  filter (fun p => String.eqb (Purchase.ItemID p) itemID) (purchases db).

(** ** JSON encodings given by the struct tags *)

Definition marshal_Item (it : Item.t) : json :=
  JObject [("id", JString (Item.ID it));
           ("wishlist_id", JString (Item.WishlistID it));
           ("name", JString (Item.Name it));
           ("description", JString (Item.Description it));
           ("purchased", JBool (Item.Purchased it));
           ("created_at", JString (Item.CreatedAt it))].

(** The [Items] slice of a freshly built wishlist is nil. *)
Definition marshal_Wishlist (w : Wishlist.t) : json :=
  JObject [("id", JString (Wishlist.ID w));
           ("user_id", JString (Wishlist.UserID w));
           ("title", JString (Wishlist.Title w));
           ("description", JString (Wishlist.Description w));
           ("created_at", JString (Wishlist.CreatedAt w));
           ("items", JNull)].

(** ** backend/controllers *)

Module CreateWishlistInput.
Record t : Type := Build { Title : string; Description : string }.
End CreateWishlistInput.

Module AddItemInput.
Record t : Type := Build { Name : string; Description : string }.
End AddItemInput.

(** [c.ShouldBindJSON(&input)]: [None] when the body does not decode or a
    field tagged [binding:"required"] is empty. *)
Definition ShouldBindJSON_CreateWishlistInput (raw : option CreateWishlistInput.t)
  : option CreateWishlistInput.t :=
  match raw with
  | Some input =>
      if String.eqb (CreateWishlistInput.Title input) "" then None else Some input
  | None => None
  end.

Definition ShouldBindJSON_AddItemInput (raw : option AddItemInput.t)
  : option AddItemInput.t :=
  match raw with
  | Some input =>
      if String.eqb (AddItemInput.Name input) "" then None else Some input
  | None => None
  end.

(** [CreateWishlist]: storage call 0 is the insert.  The handler does not
    set [CreatedAt]: the row it hands to the storage has the zero value,
    the empty string.  What the storage layer makes of the [autoCreateTime]
    tag on this string field is its own: it refuses the insert (an error of
    call 0, answered 500) or stores the row as it was given. *)
Definition CreateWishlist (db : DB) (e : Env) (c : Context)
  (raw : option CreateWishlistInput.t) : Response * DB :=
  match ShouldBindJSON_CreateWishlistInput raw with
  | None => (JSON StatusBadRequest (error (bind_error e)), db)
  | Some input =>
      match c with
      | None => (JSON StatusUnauthorized (error "User not authenticated"), db)
      | Some userID =>
          let wishlist :=
            Wishlist.Build (uuid_New e 0) userID
                           (CreateWishlistInput.Title input)
                           (CreateWishlistInput.Description input)
                           "" in
          match Create wishlist_clash (wishlists db) wishlist (db_fails e 0) with
          | None =>
              (JSON StatusInternalServerError (error "Error creating wishlist"), db)
          | Some ws =>
              (JSON StatusOK (JObject [("wishlist", marshal_Wishlist wishlist)]),
               set_wishlists db ws)
          end
      end
  end.

(** The [gin.H] built for one item of the owner view. *)
Definition owner_item (item : Item.t) : H :=
  [("id", JString (Item.ID item));
   ("name", JString (Item.Name item));
   ("description", JString (Item.Description item));
   ("purchased", JBool (Item.Purchased item));
   ("created_at", JString (Item.CreatedAt item))].

(** [GetWishlist]: storage call 0 is the lookup with [Preload("Items")]. *)
Definition GetWishlist (db : DB) (e : Env) (c : Context) (wishlistID : string)
  : Response :=
  match c with
  | None => JSON StatusUnauthorized (error "User not authenticated")
  | Some userID =>
      match First (fun w => String.eqb (Wishlist.ID w) wishlistID)
                  (wishlists db) (db_fails e 0) with
      | ErrRecordNotFound => JSON StatusNotFound (error "Wishlist not found")
      | ErrStorage => JSON StatusInternalServerError (error "Error fetching wishlist")
      | Found wishlist =>
          if negb (String.eqb (Wishlist.UserID wishlist) userID)
          then JSON StatusForbidden (error "Access denied")
          else
            let items :=
              map (fun item => JObject (owner_item item))
                  (Items db (Wishlist.ID wishlist)) in
            JSON StatusOK
                 (JObject [("id", JString (Wishlist.ID wishlist));
                           ("title", JString (Wishlist.Title wishlist));
                           ("description", JString (Wishlist.Description wishlist));
                           ("created_at", JString (Wishlist.CreatedAt wishlist));
                           ("items", JArray items)])
      end
  end.

(** [ShareWishlist]: storage call 0 is the wishlist lookup, call 1 the
    insert of the share; [uuid.New()] is drawn for the token, then for the
    share's id. *)
Definition ShareWishlist (db : DB) (e : Env) (c : Context) (wishlistID : string)
  : Response * DB :=
  match c with
  | None => (JSON StatusUnauthorized (error "User not authenticated"), db)
  | Some userID =>
      match First (fun w => String.eqb (Wishlist.ID w) wishlistID)
                  (wishlists db) (db_fails e 0) with
      | ErrRecordNotFound => (JSON StatusNotFound (error "Wishlist not found"), db)
      | ErrStorage =>
          (JSON StatusInternalServerError (error "Error fetching wishlist"), db)
      | Found wishlist =>
          if negb (String.eqb (Wishlist.UserID wishlist) userID)
          then (JSON StatusForbidden
                     (error "Only the creator can share the wishlist"), db)
          else
            let shareToken := uuid_New e 0 in
            let share :=
              Share.Build (uuid_New e 1) wishlistID shareToken (time_Now e) zeroTime in
            match Create share_clash (shares db) share (db_fails e 1) with
            | None =>
                (JSON StatusInternalServerError
                      (error "Error generating shareable link"), db)
            | Some ss =>
                let shareableLink :=
                  ("http://yourfrontend.com/shared/" ++ shareToken)%string in
                (JSON StatusOK (JObject [("shareable_link", JString shareableLink)]),
                 set_shares db ss)
            end
      end
  end.

(** [AddItem]: storage call 0 is the wishlist lookup, call 1 the insert.
    [Purchased] keeps its zero value and the column default, false, and
    [CreatedAt] its zero value, the empty string, as in [CreateWishlist]. *)
Definition AddItem (db : DB) (e : Env) (c : Context) (wishlistID : string)
  (raw : option AddItemInput.t) : Response * DB :=
  match ShouldBindJSON_AddItemInput raw with
  | None => (JSON StatusBadRequest (error (bind_error e)), db)
  | Some input =>
      match c with
      | None => (JSON StatusUnauthorized (error "User not authenticated"), db)
      | Some userID =>
          match First (fun w => String.eqb (Wishlist.ID w) wishlistID)
                      (wishlists db) (db_fails e 0) with
          | ErrRecordNotFound =>
              (JSON StatusNotFound (error "Wishlist not found"), db)
          | ErrStorage =>
              (JSON StatusInternalServerError (error "Error fetching wishlist"), db)
          | Found wishlist =>
              if negb (String.eqb (Wishlist.UserID wishlist) userID)
              then (JSON StatusForbidden (error "Only the creator can add items"), db)
              else
                let item :=
                  Item.Build (uuid_New e 0) wishlistID
                             (AddItemInput.Name input)
                             (AddItemInput.Description input)
                             false "" in
                match Create item_clash (items db) item (db_fails e 1) with
                | None =>
                    (JSON StatusInternalServerError (error "Error adding item"), db)
                | Some its =>
                    (JSON StatusOK (JObject [("item", marshal_Item item)]),
                     set_items db its)
                end
          end
      end
  end.

(** [PurchaseItem]: storage call 0 is the item lookup, call 1 the lookup of
    an existing purchase of this user, call 2 the insert, call 3 the update
    of the item's flag, whose outcome the handler does not inspect. *)
Definition PurchaseItem (db : DB) (e : Env) (c : Context) (itemID : string)
  : Response * DB :=
  match c with
  | None => (JSON StatusUnauthorized (error "User not authenticated"), db)
  | Some userID =>
      match First (fun it => String.eqb (Item.ID it) itemID)
                  (items db) (db_fails e 0) with
      | ErrRecordNotFound => (JSON StatusNotFound (error "Item not found"), db)
      | ErrStorage =>
          (JSON StatusInternalServerError (error "Error fetching item"), db)
      | Found item =>
          match First (fun p => String.eqb (Purchase.ItemID p) itemID
                                && String.eqb (Purchase.UserID p) userID)
                      (purchases db) (db_fails e 1) with
          | Found existingPurchase =>
              (JSON StatusBadRequest (error "Item already purchased by you"), db)
          | ErrRecordNotFound | ErrStorage =>
              let purchase :=
                Purchase.Build (uuid_New e 0) itemID userID (time_text e) in
              match Create purchase_clash (purchases db) purchase (db_fails e 2) with
              | None =>
                  (JSON StatusInternalServerError
                        (error "Error recording purchase"), db)
              | Some ps =>
                  let db1 := set_purchases db ps in
                  let db2 :=
                    set_items db1
                      (Update_purchased (items db1) (Item.ID item) (db_fails e 3)) in
                  (JSON StatusOK
                        (JObject [("message", JString "Item marked as purchased")]),
                   db2)
              end
          end
      end
  end.

Module SharedItem.
Record t : Type := Build {
  ID : string;
  Name : string;
  Description : string;
  Purchased : bool;
  PurchasedBy : string
}.
End SharedItem.

Module SharedWishlistResponse.
Record t : Type := Build {
  ID : string;
  Title : string;
  Description : string;
  CreatedAt : string;
  Items : list SharedItem.t
}.
End SharedWishlistResponse.

(** [PurchasedBy] is tagged [omitempty]: the key is left out when the
    string is empty. *)
Definition marshal_SharedItem (s : SharedItem.t) : H :=
  [("id", JString (SharedItem.ID s));
   ("name", JString (SharedItem.Name s));
   ("description", JString (SharedItem.Description s));
   ("purchased", JBool (SharedItem.Purchased s))]
  ++ (if String.eqb (SharedItem.PurchasedBy s) "" then []
      else [("purchased_by", JString (SharedItem.PurchasedBy s))]).

Definition marshal_SharedWishlistResponse (r : SharedWishlistResponse.t) : json :=
  JObject [("id", JString (SharedWishlistResponse.ID r));
           ("title", JString (SharedWishlistResponse.Title r));
           ("description", JString (SharedWishlistResponse.Description r));
           ("created_at", JString (SharedWishlistResponse.CreatedAt r));
           ("items", JArray (map (fun s => JObject (marshal_SharedItem s))
                                 (SharedWishlistResponse.Items r)))].

(** The inner loop of [GetSharedWishlist] over [item.Purchases]: the field
    is set at the first purchase of the requester, and the loop breaks. *)
Fixpoint purchasedBy_loop (userID : string) (ps : list Purchase.t) (acc : string)
  : string :=
  match ps with
  | [] => acc
  | purchase :: rest =>
      if String.eqb (Purchase.UserID purchase) userID then "You"
      else purchasedBy_loop userID rest acc
  end.

(** The body of the outer loop, for one item of the wishlist. *)
Definition sharedItem (db : DB) (c : Context) (item : Item.t) : SharedItem.t :=
  let purchasedBy :=
    match c with
    | Some userID => purchasedBy_loop userID (Purchases db (Item.ID item)) ""
    | None => ""
    end in
  SharedItem.Build (Item.ID item) (Item.Name item) (Item.Description item)
                   (Item.Purchased item) purchasedBy.

(** [GetSharedWishlist]: storage call 0 is the lookup of the share by token,
    call 1 the lookup of its wishlist with [Preload("Items.Purchases")].
    The test of [share.ExpiresAt] is commented out in the source, and so
    absent here. *)
Definition GetSharedWishlist (db : DB) (e : Env) (c : Context) (shareToken : string)
  : Response :=
  match First (fun s => String.eqb (Share.Token s) shareToken)
              (shares db) (db_fails e 0) with
  | ErrRecordNotFound => JSON StatusNotFound (error "Invalid or expired share link")
  | ErrStorage => JSON StatusInternalServerError (error "Error fetching share link")
  | Found share =>
      match First (fun w => String.eqb (Wishlist.ID w) (Share.WishlistID share))
                  (wishlists db) (db_fails e 1) with
      | ErrRecordNotFound | ErrStorage =>
          JSON StatusInternalServerError (error "Error fetching wishlist")
      | Found wishlist =>
          let response :=
            SharedWishlistResponse.Build
              (Wishlist.ID wishlist) (Wishlist.Title wishlist)
              (Wishlist.Description wishlist) (Wishlist.CreatedAt wishlist)
              (map (sharedItem db c) (Items db (Wishlist.ID wishlist))) in
          JSON StatusOK
               (JObject [("wishlist", marshal_SharedWishlistResponse response)])
      end
  end.

(** ** backend/routes *)

Inductive Route : Type :=
| POST_wishlists (raw : option CreateWishlistInput.t)
| GET_wishlists_id (id : string)
| POST_wishlists_id_share (id : string)
| POST_wishlists_id_items (id : string) (raw : option AddItemInput.t)
| PUT_items_id_purchase (id : string)
| GET_shared_token (token : string).

(** A request: its route, and the identity its Bearer credential stands
    for, if it carries a valid one. *)
Record Request : Type := mkRequest {
  route : Route;
  bearer : option string
}.

(** Modelled from the spec: [middleware.AuthMiddleware], whose package is
    not part of the sources at hand.  The spec has it resolve the Bearer
    credential into the caller identity and inject it into the request
    context (key ["userID"], the one the handlers read); a request without
    identity ends there, denied as not authenticated. *)
Definition AuthMiddleware (req : Request) : Response + Context :=
  match bearer req with
  | Some userID => inr (Some userID)
  | None => inl (JSON StatusUnauthorized (error "not authenticated"))
  end.

(** [SetupRoutes]: the five routes of the [protected] group run behind
    [AuthMiddleware]; [/shared/:token] is registered on [api] itself, so its
    handler runs on a context on which no ["userID"] was ever set. *)
Definition SetupRoutes (db : DB) (e : Env) (req : Request) : Response * DB :=
  let protected (handler : Context -> Response * DB) : Response * DB :=
    match AuthMiddleware req with
    | inl denied => (denied, db)
    | inr c => handler c
    end in
  match route req with
  | POST_wishlists raw => protected (fun c => CreateWishlist db e c raw)
  | GET_wishlists_id id => protected (fun c => (GetWishlist db e c id, db))
  | POST_wishlists_id_share id => protected (fun c => ShareWishlist db e c id)
  | POST_wishlists_id_items id raw => protected (fun c => AddItem db e c id raw)
  | PUT_items_id_purchase id => protected (fun c => PurchaseItem db e c id)
  | GET_shared_token token => (GetSharedWishlist db e None token, db)
  end.

(** The store after a sequence of requests, each served in its own
    environment. *)
Fixpoint serve_all (db : DB) (reqs : list (Env * Request)) : DB :=
  match reqs with
  | [] => db
  | (e, req) :: rest => serve_all (snd (SetupRoutes db e req)) rest
  end.

(** A run of the handlers themselves, on whatever context each is given. *)
Inductive Call : Type :=
| CallCreateWishlist (c : Context) (raw : option CreateWishlistInput.t)
| CallShareWishlist (c : Context) (wishlistID : string)
| CallAddItem (c : Context) (wishlistID : string) (raw : option AddItemInput.t)
| CallPurchaseItem (c : Context) (itemID : string).

Definition call (db : DB) (e : Env) (k : Call) : Response * DB :=
  match k with
  | CallCreateWishlist c raw => CreateWishlist db e c raw
  | CallShareWishlist c id => ShareWishlist db e c id
  | CallAddItem c id raw => AddItem db e c id raw
  | CallPurchaseItem c id => PurchaseItem db e c id
  end.

(** The store after a sequence of handler calls. *)
Fixpoint call_all (db : DB) (calls : list (Env * Call)) : DB :=
  match calls with
  | [] => db
  | (e, k) :: rest => call_all (snd (call db e k)) rest
  end.

(** The flag update of [PurchaseItem] (its storage call 3) is carried out. *)
Definition flag_update_lands (e : Env) (k : Call) : Prop :=
  match k with
  | CallPurchaseItem _ _ => db_fails e 3 = false
  | _ => True
  end.

(** The stores reached from the empty one by handler calls whose
    environments satisfy [ok], the calls run one after another, each to its
    end before the next starts.  A handler's storage calls are not in a
    transaction: what requests that overlap can leave in the store is not
    described by this relation. *)
Inductive reachable (ok : Env -> Call -> Prop) : DB -> Prop :=
| reachable_empty : reachable ok emptyDB
| reachable_call db e k :
    reachable ok db -> ok e k -> reachable ok (snd (call db e k)).

(** ** What the claims speak of *)

(** The user holds a Purchase on the item. *)
Definition holds_purchase (db : DB) (userID itemID : string) : bool :=
  existsb (fun p => String.eqb (Purchase.ItemID p) itemID
                    && String.eqb (Purchase.UserID p) userID)
          (purchases db).

(** The item's flag agrees with the ledger. *)
Definition flag_matches_ledger (db : DB) (it : Item.t) : Prop :=
  Item.Purchased it = true <->
  exists p, In p (purchases db) /\ Purchase.ItemID p = Item.ID it.

(** Every Purchase of the ledger is on an item of the store. *)
Definition ledger_on_items (db : DB) : Prop :=
  forall p, In p (purchases db) ->
  exists it, In it (items db) /\ Item.ID it = Purchase.ItemID p.

(** The viewer of a shared list holds a Purchase on the item; nobody does
    when the context carries no identity. *)
Definition viewer_holds (db : DB) (c : Context) (itemID : string) : bool :=
  match c with
  | Some userID => holds_purchase db userID itemID
  | None => false
  end.

(** Reading a response: whether a key occurs anywhere in a JSON value, the
    value with every field of that key removed, and the objects of the
    [items] array of the shared view. *)
Fixpoint mentions (k : string) (j : json) : bool :=
  match j with
  | JArray elems => existsb (mentions k) elems
  | JObject fields =>
      (fix any (fs : list (string * json)) : bool :=
         match fs with
         | [] => false
         | (k', v) :: rest => String.eqb k' k || mentions k v || any rest
         end) fields
  | _ => false
  end.

Fixpoint strip (k : string) (j : json) : json :=
  match j with
  | JArray elems => JArray (map (strip k) elems)
  | JObject fields =>
      JObject
        ((fix keep (fs : list (string * json)) : list (string * json) :=
            match fs with
            | [] => []
            | (k', v) :: rest =>
                if String.eqb k' k then keep rest else (k', strip k v) :: keep rest
            end) fields)
  | _ => j
  end.

Definition objects (elems : list json) : list H :=
  flat_map (fun j => match j with JObject h => [h] | _ => [] end) elems.

Definition shared_view_items (r : Response) : list H :=
  match body r with
  | JObject fields =>
      match get "wishlist" fields with
      | Some (JObject w) =>
          match get "items" w with
          | Some (JArray elems) => objects elems
          | _ => []
          end
      | _ => []
      end
  | _ => []
  end.

(** The share carries an expiry, and it lies before [now]. *)
Definition expired (share : Share.t) (now : Time) : Prop :=
  Share.ExpiresAt share <> zeroTime /\ (Share.ExpiresAt share < now)%Z.

(** The share with another expiry, and the store with other expiries on
    all its shares. *)
Definition with_ExpiresAt (expiry : Share.t -> Time) (share : Share.t) : Share.t :=
  Share.Build (Share.ID share) (Share.WishlistID share) (Share.Token share)
              (Share.CreatedAt share) (expiry share).

Definition with_expiries (expiry : Share.t -> Time) (db : DB) : DB :=
  set_shares db (map (with_ExpiresAt expiry) (shares db)).

(** The wishlist under another owner. *)
Definition with_UserID (owner : Wishlist.t -> string) (w : Wishlist.t) : Wishlist.t :=
  Wishlist.Build (Wishlist.ID w) (owner w) (Wishlist.Title w)
                 (Wishlist.Description w) (Wishlist.CreatedAt w).

(** The environment at another instant. *)
Definition at_time (now : Time) (e : Env) : Env :=
  mkEnv (uuid_New e) now (time_text e) (bind_error e) (db_fails e).

(** What the handlers maintain together. *)
Definition ledger_invariant (db : DB) : Prop :=
  (forall it, In it (items db) -> flag_matches_ledger db it) /\ ledger_on_items db.

(** Every storage call of the request is answered. *)
Definition storage_ok (e : Env) : Prop := forall k, db_fails e k = false.

(** ** Concrete stores and environments, for running the handlers *)

Definition alice_list : Wishlist.t := Wishlist.Build "w1" "alice" "Bike" "" "".
Definition trek : Item.t := Item.Build "i1" "w1" "Trek 520" "" false "".
Definition trek_bought : Item.t := Item.Build "i1" "w1" "Trek 520" "" true "".
Definition bob_buys_trek : Purchase.t := Purchase.Build "p1" "i1" "bob" "t9".
Definition link_T : Share.t := Share.Build "s1" "w1" "T" 10%Z zeroTime.

Definition db_unshared : DB := mkDB [alice_list] [trek] [] [].
Definition db_listed : DB := mkDB [alice_list] [trek] [] [link_T].
Definition db_bought : DB := mkDB [alice_list] [trek_bought] [bob_buys_trek] [link_T].

Definition env_ok (id : string) : Env :=
  mkEnv (fun _ => id) 10%Z "t9" "invalid request" (fun _ => false).
Definition env_share (token id : string) : Env :=
  mkEnv (fun k => match k with O => token | _ => id end)
        10%Z "t9" "invalid request" (fun _ => false).
Definition env_down : Env :=
  mkEnv (fun _ => "x") 10%Z "t9" "invalid request" (fun _ => true).

(** The scenario of the spec, as requests to the router: Alice creates the
    wishlist "Bike", adds "Trek 520", shares the list; Bob purchases the
    item. *)
Definition scenario : list (Env * Request) :=
  [(env_ok "w1",
    mkRequest (POST_wishlists (Some (CreateWishlistInput.Build "Bike" "")))
              (Some "alice"));
   (env_ok "i1",
    mkRequest (POST_wishlists_id_items "w1" (Some (AddItemInput.Build "Trek 520" "")))
              (Some "alice"));
   (env_share "T" "s1", mkRequest (POST_wishlists_id_share "w1") (Some "alice"));
   (env_ok "p1", mkRequest (PUT_items_id_purchase "i1") (Some "bob"))].

(** The store [db_bought] with a further Purchase on the same item, by
    another user. *)
Definition carol_buys_trek : Purchase.t := Purchase.Build "p2" "i1" "carol" "t9".
Definition db_bought_twice : DB :=
  mkDB [alice_list] [trek_bought] [bob_buys_trek; carol_buys_trek] [link_T].

(** The shared view of the scenario, without and with the annotation. *)
Definition trek_shared (annotation : H) : json :=
  JObject
    [("wishlist",
      JObject
        [("id", JString "w1"); ("title", JString "Bike");
         ("description", JString ""); ("created_at", JString "");
         ("items",
          JArray [JObject ([("id", JString "i1"); ("name", JString "Trek 520");
                            ("description", JString ""); ("purchased", JBool true)]
                           ++ annotation)])])].

(** The same scenario as calls of the handlers. *)
Definition scenario_calls : list (Env * Call) :=
  [(env_ok "w1",
    CallCreateWishlist (Some "alice") (Some (CreateWishlistInput.Build "Bike" "")));
   (env_ok "i1",
    CallAddItem (Some "alice") "w1" (Some (AddItemInput.Build "Trek 520" "")));
   (env_share "T" "s1", CallShareWishlist (Some "alice") "w1");
   (env_ok "p1", CallPurchaseItem (Some "bob") "i1")].

(** A store whose only share carries an expiry, 5, before the instant 10 of
    the environments above. *)
Definition link_old : Share.t := Share.Build "s0" "w1" "OLD" 1%Z 5%Z.
Definition db_expired : DB := mkDB [alice_list] [trek] [] [link_old].

(** A second link on Alice's wishlist. *)
Definition link_U : Share.t := Share.Build "s2" "w1" "U" 10%Z zeroTime.

(** Environments in which exactly one storage call of the request fails. *)
Definition env_failing (call_no : nat) (id : string) : Env :=
  mkEnv (fun _ => id) 10%Z "t9" "invalid request" (Nat.eqb call_no).

(** ** Further notions: what the store looks like after any run *)

(** No condition on the environments of a run. *)
Definition any_env (e : Env) (k : Call) : Prop := True.

(** The lookup of an existing purchase in [PurchaseItem] (its storage
    call 1) is answered. *)
Definition purchase_lookup_answered (e : Env) (k : Call) : Prop :=
  match k with
  | CallPurchaseItem _ _ => db_fails e 1 = false
  | _ => True
  end.

(** The same item, but for a flag that may have been set. *)
Definition same_but_flag (a b : Item.t) : Prop :=
  Item.ID b = Item.ID a
  /\ Item.WishlistID b = Item.WishlistID a
  /\ Item.Name b = Item.Name a
  /\ Item.Description b = Item.Description a
  /\ Item.CreatedAt b = Item.CreatedAt a
  /\ (Item.Purchased a = true -> Item.Purchased b = true).

(** Primary keys and share tokens occur once. *)
Definition keys_unique (db : DB) : Prop :=
  NoDup (map Wishlist.ID (wishlists db))
  /\ NoDup (map Item.ID (items db))
  /\ NoDup (map Purchase.ID (purchases db))
  /\ NoDup (map Share.ID (shares db))
  /\ NoDup (map Share.Token (shares db)).

(** Items and shares are on stored wishlists, purchases on stored items. *)
Definition references_resolve (db : DB) : Prop :=
  (forall it, In it (items db) ->
     exists w, In w (wishlists db) /\ Wishlist.ID w = Item.WishlistID it)
  /\ (forall s, In s (shares db) ->
        exists w, In w (wishlists db) /\ Wishlist.ID w = Share.WishlistID s)
  /\ ledger_on_items db.

(** The objects of the [items] array of the owner view. *)
Definition owner_view_items (r : Response) : list H :=
  match body r with
  | JObject fields =>
      match get "items" fields with
      | Some (JArray elems) => objects elems
      | _ => []
      end
  | _ => []
  end.

(** ** frontend/vite.config.ts *)

(** The [rewrite] of the [/api] proxy entry,
    [path.replace(/^\/api/, '/api')]: the pattern is anchored at the start
    of the path and matches the four characters [/api]; the match, if any,
    is replaced by ['/api']. *)
Definition rewrite (path : string) : string :=
  if prefix "/api" path
  then ("/api" ++ substring 4 (String.length path - 4) path)%string
  else path.

(** * Basic facts about the storage calls *)

Section Storage.
Context {A : Type}.

Lemma First_ok (cond : A -> bool) (table : list A) :
  First cond table false =
  match find cond table with Some row => Found row | None => ErrRecordNotFound end.
Proof. reflexivity. Qed.

Lemma First_Found (cond : A -> bool) table fails row :
  First cond table fails = Found row ->
  fails = false /\ find cond table = Some row.
Proof.
  unfold First. destruct fails; [discriminate|].
  destruct (find cond table); [|discriminate].
  intros [= ->]. auto.
Qed.

Lemma Create_Some (clash : A -> A -> bool) table row fails table' :
  Create clash table row fails = Some table' ->
  table' = table ++ [row] /\ fails = false /\
  forall r, In r table -> clash row r = false.
Proof.
  unfold Create. destruct fails; simpl; [discriminate|].
  destruct (existsb (clash row) table) eqn:E; [discriminate|].
  intros [= <-]. repeat split; auto.
  intros r Hr. destruct (clash row r) eqn:C; auto.
  assert (existsb (clash row) table = true) by (apply existsb_exists; eauto).
  congruence.
Qed.

Lemma Create_fresh (clash : A -> A -> bool) table row :
  (forall r, In r table -> clash row r = false) ->
  Create clash table row false = Some (table ++ [row]).
Proof.
  intros Hf. unfold Create. simpl.
  destruct (existsb (clash row) table) eqn:E; auto.
  apply existsb_exists in E. destruct E as (r & Hr & C).
  rewrite (Hf r Hr) in C. discriminate.
Qed.

Lemma find_app_Some (cond : A -> bool) l l' row :
  find cond l = Some row -> find cond (l ++ l') = Some row.
Proof.
  induction l as [|a l IH]; simpl; [discriminate|].
  destruct (cond a); auto.
Qed.

Lemma find_app_None (cond : A -> bool) l l' :
  find cond l = None -> find cond (l ++ l') = find cond l'.
Proof.
  induction l as [|a l IH]; simpl; auto.
  destruct (cond a); [discriminate|auto].
Qed.

Lemma find_In_Some (cond : A -> bool) l row :
  In row l -> cond row = true -> exists row', find cond l = Some row'.
Proof.
  induction l as [|a l IH]; simpl; [tauto|].
  intros [->|Hin] Hc.
  - rewrite Hc. eauto.
  - destruct (cond a); eauto.
Qed.
End Storage.

Lemma holds_purchase_true db userID itemID :
  holds_purchase db userID itemID = true <->
  exists p, In p (purchases db) /\ Purchase.ItemID p = itemID
            /\ Purchase.UserID p = userID.
Proof.
  unfold holds_purchase. rewrite existsb_exists. split.
  - intros (p & Hin & Hc). apply andb_true_iff in Hc. destruct Hc as [Hi Hu].
    apply String.eqb_eq in Hi, Hu. eauto.
  - intros (p & Hin & Hi & Hu). exists p. split; auto.
    rewrite Hi, Hu, !String.eqb_refl. reflexivity.
Qed.

Lemma holds_purchase_find db userID itemID :
  holds_purchase db userID itemID = true <->
  exists p, find (fun p => String.eqb (Purchase.ItemID p) itemID
                           && String.eqb (Purchase.UserID p) userID)
                 (purchases db) = Some p.
Proof.
  unfold holds_purchase. rewrite existsb_exists. split.
  - intros (p & Hin & Hc). eapply find_In_Some; eauto.
  - intros (p & Hf). apply find_some in Hf. eauto.
Qed.

(** * The purchase ledger *)

(** C10.  Whenever [PurchaseItem] answers with an error (not authenticated,
    item not found, already purchased, a storage failure on a lookup or on
    the insert), the store it leaves is the store it found: no Purchase is
    created and no item's flag is touched. *)
Theorem PurchaseItem_error_keeps_store db e c itemID :
  status (fst (PurchaseItem db e c itemID)) <> StatusOK ->
  snd (PurchaseItem db e c itemID) = db.
Proof.
  unfold PurchaseItem.
  destruct c as [userID|]; simpl; auto.
  destruct (First _ (items db) _); simpl; auto.
  destruct (First _ (purchases db) _); simpl; auto;
    destruct (Create _ _ _ _); simpl; auto; intros Hne; now elim Hne.
Qed.

(** With the storage down, Carol's purchase is answered 500 and nothing is stored. *)
Lemma PurchaseItem_error_keeps_store_witness :
  status (fst (PurchaseItem db_bought env_down (Some "carol") "i1")) = StatusInternalServerError
  /\ snd (PurchaseItem db_bought env_down (Some "carol") "i1") = db_bought.
Proof.
  split; [reflexivity|].
  apply (PurchaseItem_error_keeps_store db_bought env_down (Some "carol") "i1").
  vm_compute. discriminate.
Defined.

(** When the user already holds a Purchase on an existing item and the two
    lookups are answered, a further [PurchaseItem] of that user on that item
    is answered with the conflict error, "Item already purchased by you"
    (400), and the store is left as it was. *)
Lemma PurchaseItem_again_conflict db e userID itemID item :
  In item (items db) -> Item.ID item = itemID ->
  holds_purchase db userID itemID = true ->
  db_fails e 0 = false -> db_fails e 1 = false ->
  PurchaseItem db e (Some userID) itemID =
  (JSON StatusBadRequest (error "Item already purchased by you"), db).
Proof.
  intros Hin Hid Hp F0 F1. unfold PurchaseItem. rewrite F0, F1, !First_ok.
  destruct (find_In_Some (fun it => String.eqb (Item.ID it) itemID) _ _ Hin)
    as [item' ->]; [rewrite Hid; apply String.eqb_refl|].
  apply holds_purchase_find in Hp. destruct Hp as [p ->]. reflexivity.
Qed.

(** Bob, who bought the item, asks again. *)
Lemma PurchaseItem_again_conflict_witness :
  PurchaseItem db_bought (env_ok "p2") (Some "bob") "i1" =
  (JSON StatusBadRequest (error "Item already purchased by you"), db_bought).
Proof.
  apply (PurchaseItem_again_conflict db_bought (env_ok "p2") "bob" "i1" trek_bought);
    try reflexivity.
  simpl. auto.
Defined.

(** C3.  [PurchaseItem] on an error of its second lookup.  The handler
    tests the lookup of an existing purchase for [err == nil] only, where
    its lookup of the item tells [ErrRecordNotFound] from other errors: any
    error of the second lookup is taken for "no purchase yet".  Bob holds a
    Purchase on "i1" and asks again; the second lookup fails and the other
    storage calls are answered: the answer is 200, not the conflict error,
    and a second Purchase of Bob on "i1" is stored. *)
Theorem PurchaseItem_lookup_error_inserts :
  holds_purchase db_bought "bob" "i1" = true
  /\ PurchaseItem db_bought (env_failing 1 "p2") (Some "bob") "i1" =
     (JSON StatusOK (JObject [("message", JString "Item marked as purchased")]),
      mkDB [alice_list] [trek_bought]
           [bob_buys_trek; Purchase.Build "p2" "i1" "bob" "t9"] [link_T]).
Proof. split; reflexivity. Qed.

Lemma holds_purchase_false db userID itemID :
  holds_purchase db userID itemID = false ->
  find (fun p => String.eqb (Purchase.ItemID p) itemID
                 && String.eqb (Purchase.UserID p) userID)
       (purchases db) = None.
Proof.
  intros Hn. destruct (find _ (purchases db)) as [p|] eqn:Hf; auto.
  assert (holds_purchase db userID itemID = true)
    by (apply holds_purchase_find; eauto).
  congruence.
Qed.

(** C7.  On an existing item, [PurchaseItem] succeeds for any authenticated
    caller who holds no Purchase on it yet: the answer is 200, the caller's
    Purchase is appended to the ledger and the item's flag is set.  Nothing
    in the premises looks at who owns the item's wishlist, so the owner is
    served like anybody else. *)
Theorem PurchaseItem_any_caller db e userID itemID item :
  In item (items db) -> Item.ID item = itemID ->
  holds_purchase db userID itemID = false ->
  (forall p, In p (purchases db) -> Purchase.ID p <> uuid_New e 0) ->
  storage_ok e ->
  PurchaseItem db e (Some userID) itemID =
  (JSON StatusOK (JObject [("message", JString "Item marked as purchased")]),
   mkDB (wishlists db)
        (map (mark_purchased itemID) (items db))
        (purchases db ++ [Purchase.Build (uuid_New e 0) itemID userID (time_text e)])
        (shares db)).
Proof.
  intros Hin Hid Hnp Hfresh Hok. unfold PurchaseItem.
  rewrite !Hok, !First_ok.
  destruct (find (fun it => String.eqb (Item.ID it) itemID) (items db))
    as [item'|] eqn:Hf.
  2:{ destruct (find_In_Some (fun it => String.eqb (Item.ID it) itemID) _ _ Hin)
        as [item' Hf']; [rewrite Hid; apply String.eqb_refl|congruence]. }
  apply find_some in Hf. destruct Hf as [_ Hid']. apply String.eqb_eq in Hid'.
  rewrite (holds_purchase_false _ _ _ Hnp).
  rewrite Create_fresh.
  - unfold Update_purchased, set_items, set_purchases. simpl. now rewrite Hid'.
  - intros r Hr. unfold purchase_clash. simpl. apply String.eqb_neq.
    intros Heq. now apply (Hfresh r Hr).
Qed.

(** The owner of the wishlist records a Purchase on her own item. *)
Lemma PurchaseItem_any_caller_witness :
  Wishlist.UserID alice_list = "alice"
  /\ Item.WishlistID trek = Wishlist.ID alice_list
  /\ PurchaseItem db_listed (env_ok "p1") (Some "alice") "i1" =
     (JSON StatusOK (JObject [("message", JString "Item marked as purchased")]),
      mkDB [alice_list] [trek_bought]
           [Purchase.Build "p1" "i1" "alice" "t9"] [link_T]).
Proof.
  split; [reflexivity|]. split; [reflexivity|].
  apply (PurchaseItem_any_caller db_listed (env_ok "p1") "alice" "i1" trek).
  - simpl. auto.
  - reflexivity.
  - reflexivity.
  - simpl. tauto.
  - intros k. reflexivity.
Defined.

(** ** The flag and the ledger *)

Lemma mark_purchased_ID id it : Item.ID (mark_purchased id it) = Item.ID it.
Proof. unfold mark_purchased. destruct (String.eqb _ _); reflexivity. Qed.

Lemma mark_purchased_hit id it :
  Item.ID it = id -> Item.Purchased (mark_purchased id it) = true.
Proof. intros <-. unfold mark_purchased. now rewrite String.eqb_refl. Qed.

Lemma mark_purchased_miss id it :
  Item.ID it <> id -> mark_purchased id it = it.
Proof.
  intros Hne. unfold mark_purchased.
  apply String.eqb_neq in Hne. now rewrite Hne.
Qed.

Lemma ledger_invariant_empty : ledger_invariant emptyDB.
Proof. split; intros ? []. Qed.

Lemma CreateWishlist_ledger db e c raw :
  ledger_invariant db -> ledger_invariant (snd (CreateWishlist db e c raw)).
Proof.
  intros Hinv. unfold CreateWishlist.
  destruct (ShouldBindJSON_CreateWishlistInput raw); simpl; auto.
  destruct c; simpl; auto.
  destruct (Create _ _ _ _); simpl; auto.
Qed.

Lemma ShareWishlist_ledger db e c id :
  ledger_invariant db -> ledger_invariant (snd (ShareWishlist db e c id)).
Proof.
  intros Hinv. unfold ShareWishlist.
  destruct c; simpl; auto.
  destruct (First _ _ _); simpl; auto.
  destruct (negb _); simpl; auto.
  destruct (Create _ _ _ _); simpl; auto.
Qed.

Lemma AddItem_ledger db e c id raw :
  ledger_invariant db -> ledger_invariant (snd (AddItem db e c id raw)).
Proof.
  intros [Hflag Hon]. unfold AddItem.
  destruct (ShouldBindJSON_AddItemInput raw) as [input|]; simpl; [|split; auto].
  destruct c as [userID|]; simpl; [|split; auto].
  destruct (First _ _ _); simpl; try (split; auto; fail).
  destruct (negb _); simpl; [split; auto|].
  destruct (Create _ _ _ _) as [its|] eqn:HC; simpl; [|split; auto].
  apply Create_Some in HC. destruct HC as (-> & _ & Hfresh).
  split.
  - intros it Hin. apply in_app_or in Hin. destruct Hin as [Hin|[<-|[]]].
    + apply (Hflag it Hin).
    + unfold flag_matches_ledger. simpl. split; [discriminate|].
      intros (p & Hp & Hid). destruct (Hon p Hp) as (it & Hit & Hid').
      specialize (Hfresh it Hit). unfold item_clash in Hfresh. simpl in Hfresh.
      apply String.eqb_neq in Hfresh. congruence.
  - intros p Hp. destruct (Hon p Hp) as (it & Hit & Hid).
    exists it. split; auto. simpl. apply in_or_app. auto.
Qed.

Lemma PurchaseItem_ledger db e c itemID :
  db_fails e 3 = false ->
  ledger_invariant db -> ledger_invariant (snd (PurchaseItem db e c itemID)).
Proof.
  intros F3 [Hflag Hon]. unfold PurchaseItem.
  destruct c as [userID|]; simpl; [|split; auto].
  destruct (First _ (items db) _) as [item| |] eqn:HI; simpl; try (split; auto; fail).
  apply First_Found in HI. destruct HI as [_ HI]. apply find_some in HI.
  destruct HI as [Hitem Hid]. apply String.eqb_eq in Hid.
  assert (Hgo : forall ps,
             Create purchase_clash (purchases db)
                    (Purchase.Build (uuid_New e 0) itemID userID (time_text e))
                    (db_fails e 2) = Some ps ->
             ledger_invariant
               (set_items (set_purchases db ps)
                  (Update_purchased (items (set_purchases db ps)) (Item.ID item)
                                    (db_fails e 3)))).
  { intros ps HC. apply Create_Some in HC. destruct HC as (-> & _ & _).
    rewrite F3, Hid. unfold Update_purchased. simpl. split.
    - intros it' Hin'. apply in_map_iff in Hin'. destruct Hin' as (it & <- & Hin).
      unfold flag_matches_ledger. simpl. rewrite mark_purchased_ID.
      destruct (string_dec (Item.ID it) itemID) as [Heq|Hne].
      + rewrite (mark_purchased_hit _ _ Heq). split; auto. intros _.
        eexists. split; [apply in_or_app; right; left; reflexivity|]. simpl. auto.
      + rewrite (mark_purchased_miss _ _ Hne).
        destruct (Hflag it Hin) as [H1 H2]. split.
        * intros Hp. destruct (H1 Hp) as (p & Hp' & Hpid).
          exists p. split; auto. apply in_or_app. auto.
        * intros (p & Hp & Hpid). apply H2.
          apply in_app_or in Hp. destruct Hp as [Hp|[<-|[]]]; [eauto|].
          simpl in Hpid. congruence.
    - intros p Hp. simpl in Hp. apply in_app_or in Hp.
      destruct Hp as [Hp|[<-|[]]].
      + destruct (Hon p Hp) as (it & Hit & Hid').
        exists (mark_purchased itemID it). simpl. split.
        * apply in_map. auto.
        * now rewrite mark_purchased_ID.
      + exists (mark_purchased itemID item). simpl. split.
        * apply in_map. auto.
        * now rewrite mark_purchased_ID. }
  destruct (First _ (purchases db) _); simpl; try (split; auto; fail);
    destruct (Create _ _ _ _) as [ps|] eqn:HC; simpl; try (split; auto; fail);
    apply Hgo; reflexivity.
Qed.

Lemma call_ledger db e k :
  flag_update_lands e k -> ledger_invariant db -> ledger_invariant (snd (call db e k)).
Proof.
  destruct k; simpl; intros Hok Hinv.
  - now apply CreateWishlist_ledger.
  - now apply ShareWishlist_ledger.
  - now apply AddItem_ledger.
  - now apply PurchaseItem_ledger.
Qed.

Lemma reachable_ledger db :
  reachable flag_update_lands db -> ledger_invariant db.
Proof.
  induction 1 as [|db e k Hr IH Hok].
  - apply ledger_invariant_empty.
  - now apply call_ledger.
Qed.

(** In every store reached from the empty one by handler calls whose flag
    update is carried out, an item's [Purchased] flag is true if and only
    if some Purchase of the ledger references the item.  [AddItem] stores
    the item with the flag false; [PurchaseItem] appends the Purchase and
    sets the flag. *)
Lemma purchased_flag_matches_ledger db :
  reachable flag_update_lands db ->
  forall it, In it (items db) ->
  (Item.Purchased it = true <->
   exists p, In p (purchases db) /\ Purchase.ItemID p = Item.ID it).
Proof.
  intros Hr it Hin. exact (proj1 (reachable_ledger db Hr) it Hin).
Qed.

(** The flag update has to be carried out: the handler does not inspect
    its outcome, and answers 200 with the Purchase stored when it fails. *)
Lemma PurchaseItem_update_error_unseen :
  PurchaseItem db_listed (env_failing 3 "p1") (Some "bob") "i1" =
  (JSON StatusOK (JObject [("message", JString "Item marked as purchased")]),
   mkDB [alice_list] [trek] [bob_buys_trek] [link_T]).
Proof. reflexivity. Qed.

(** C5.  [PurchaseItem] on an error of its flag update.  Every other
    storage call of the handler has its error tested; the outcome of
    [Update("purchased", true)] is discarded.  On the store [db_listed]
    every item's flag agrees with the ledger.  Bob purchases "i1"; the
    update fails and the other storage calls are answered: the answer is
    200, Bob's Purchase is stored, and the item it is on keeps [Purchased]
    false, so the flag no longer agrees with the ledger. *)
Theorem PurchaseItem_update_error_breaks_flag :
  ledger_invariant db_listed
  /\ fst (PurchaseItem db_listed (env_failing 3 "p1") (Some "bob") "i1") =
     JSON StatusOK (JObject [("message", JString "Item marked as purchased")])
  /\ In trek (items (snd (PurchaseItem db_listed (env_failing 3 "p1")
                                       (Some "bob") "i1")))
  /\ Item.Purchased trek = false
  /\ In bob_buys_trek (purchases (snd (PurchaseItem db_listed (env_failing 3 "p1")
                                                    (Some "bob") "i1")))
  /\ Purchase.ItemID bob_buys_trek = Item.ID trek
  /\ ~ flag_matches_ledger
         (snd (PurchaseItem db_listed (env_failing 3 "p1") (Some "bob") "i1")) trek.
Proof.
  split.
  { split.
    - intros it [<-|[]]. split; [discriminate|]. intros (p & [] & _).
    - intros p []. }
  split; [reflexivity|]. split; [left; reflexivity|]. split; [reflexivity|].
  split; [left; reflexivity|]. split; [reflexivity|].
  intros [_ Hback].
  assert (Hflag : Item.Purchased trek = true).
  { apply Hback. exists bob_buys_trek. split; [left|]; reflexivity. }
  discriminate.
Qed.

(** The router only ever changes the store through a handler. *)
Lemma SetupRoutes_call db e req :
  snd (SetupRoutes db e req) = db \/
  exists k, snd (SetupRoutes db e req) = snd (call db e k)
            /\ (db_fails e 3 = false -> flag_update_lands e k).
Proof.
  unfold SetupRoutes, AuthMiddleware.
  destruct (route req) as [raw|id|id|id raw|id|token]; simpl; auto;
    destruct (bearer req) as [userID|]; simpl; auto; right.
  - exists (CallCreateWishlist (Some userID) raw). simpl. auto.
  - exists (CallShareWishlist (Some userID) id). simpl. auto.
  - exists (CallAddItem (Some userID) id raw). simpl. auto.
  - exists (CallPurchaseItem (Some userID) id). simpl. auto.
Qed.

Lemma serve_all_reachable reqs : forall db,
  Forall (fun er => db_fails (fst er) 3 = false) reqs ->
  reachable flag_update_lands db ->
  reachable flag_update_lands (serve_all db reqs).
Proof.
  induction reqs as [|[e req] reqs IH]; simpl; intros db Hall Hr; auto.
  inversion Hall as [|? ? He Hrest]; subst. simpl in He.
  apply IH; auto.
  destruct (SetupRoutes_call db e req) as [->|(k & -> & Hk)]; auto.
  apply reachable_call; auto.
Qed.

Lemma call_all_reachable calls : forall db,
  Forall (fun ek => flag_update_lands (fst ek) (snd ek)) calls ->
  reachable flag_update_lands db ->
  reachable flag_update_lands (call_all db calls).
Proof.
  induction calls as [|[e k] calls IH]; simpl; intros db Hall Hr; auto.
  inversion Hall as [|? ? Hk Hrest]; subst. simpl in Hk.
  apply IH; auto. now apply reachable_call.
Qed.

(** Both runs of the scenario end in the store [db_bought]. *)
Lemma scenario_store :
  serve_all emptyDB scenario = db_bought /\ call_all emptyDB scenario_calls = db_bought.
Proof. split; reflexivity. Qed.

(** The store at the end of the scenario. *)
Lemma purchased_flag_matches_ledger_witness :
  In trek_bought (items (call_all emptyDB scenario_calls))
  /\ (Item.Purchased trek_bought = true <->
      exists p, In p (purchases (call_all emptyDB scenario_calls))
                /\ Purchase.ItemID p = Item.ID trek_bought).
Proof.
  split; [left; reflexivity|].
  apply (purchased_flag_matches_ledger (call_all emptyDB scenario_calls)).
  - apply call_all_reachable.
    + repeat constructor.
    + apply reachable_empty.
  - left. reflexivity.
Defined.

(** * The shared view *)

Lemma purchasedBy_loop_holds userID itemID ps :
  purchasedBy_loop userID
    (filter (fun p => String.eqb (Purchase.ItemID p) itemID) ps) "" =
  if existsb (fun p => String.eqb (Purchase.ItemID p) itemID
                       && String.eqb (Purchase.UserID p) userID) ps
  then "You" else "".
Proof.
  induction ps as [|p ps IH]; simpl; auto.
  destruct (String.eqb (Purchase.ItemID p) itemID); simpl; auto.
  destruct (String.eqb (Purchase.UserID p) userID); simpl; auto.
Qed.

Lemma sharedItem_PurchasedBy db c item :
  SharedItem.PurchasedBy (sharedItem db c item) =
  if viewer_holds db c (Item.ID item) then "You" else "".
Proof.
  destruct c as [userID|]; simpl; auto.
  apply purchasedBy_loop_holds.
Qed.

(** The JSON of one item of the shared view. *)
Lemma marshal_sharedItem db c item :
  marshal_SharedItem (sharedItem db c item) =
  [("id", JString (Item.ID item));
   ("name", JString (Item.Name item));
   ("description", JString (Item.Description item));
   ("purchased", JBool (Item.Purchased item))]
  ++ (if viewer_holds db c (Item.ID item)
      then [("purchased_by", JString "You")] else []).
Proof.
  unfold marshal_SharedItem. rewrite sharedItem_PurchasedBy.
  destruct (viewer_holds db c (Item.ID item)); reflexivity.
Qed.

Lemma get_purchased_by db c item :
  get "purchased_by" (marshal_SharedItem (sharedItem db c item)) =
  if viewer_holds db c (Item.ID item) then Some (JString "You") else None.
Proof.
  rewrite marshal_sharedItem.
  destruct (viewer_holds db c (Item.ID item)); reflexivity.
Qed.

Lemma strip_sharedItem db c item :
  strip "purchased_by" (JObject (marshal_SharedItem (sharedItem db c item))) =
  JObject [("id", JString (Item.ID item));
           ("name", JString (Item.Name item));
           ("description", JString (Item.Description item));
           ("purchased", JBool (Item.Purchased item))].
Proof.
  rewrite marshal_sharedItem.
  destruct (viewer_holds db c (Item.ID item)); reflexivity.
Qed.

Lemma objects_map_JObject {A : Type} (f : A -> H) l :
  objects (map (fun a => JObject (f a)) l) = map f l.
Proof. induction l as [|a l IH]; simpl; [|rewrite <- IH]; reflexivity. Qed.

Lemma shared_view_items_eq db e c token :
  shared_view_items (GetSharedWishlist db e c token) = [] \/
  exists wishlistID,
    shared_view_items (GetSharedWishlist db e c token) =
    map (fun item => marshal_SharedItem (sharedItem db c item)) (Items db wishlistID).
Proof.
  unfold GetSharedWishlist.
  destruct (First _ (shares db) _) as [share| |]; auto.
  destruct (First _ (wishlists db) _) as [wishlist| |]; auto.
  right. exists (Wishlist.ID wishlist).
  unfold shared_view_items. simpl.
  rewrite objects_map_JObject, map_map. reflexivity.
Qed.

Lemma sharedItem_only_viewer db db' c :
  (forall itemID, viewer_holds db' c itemID = viewer_holds db c itemID) ->
  forall item, sharedItem db' c item = sharedItem db c item.
Proof.
  intros Hview item.
  assert (Hby : SharedItem.PurchasedBy (sharedItem db' c item) =
                SharedItem.PurchasedBy (sharedItem db c item))
    by (now rewrite !sharedItem_PurchasedBy, Hview).
  unfold sharedItem in *. simpl in Hby. now rewrite Hby.
Qed.

Lemma find_with_UserID owner id ws :
  find (fun w => String.eqb (Wishlist.ID w) id) (map (with_UserID owner) ws) =
  option_map (with_UserID owner) (find (fun w => String.eqb (Wishlist.ID w) id) ws).
Proof.
  induction ws as [|w ws IH]; simpl; auto.
  destruct (String.eqb (Wishlist.ID w) id); auto.
Qed.

(** C9.  Two viewers of the same share token, on the same store, get
    answers of the same status whose bodies are equal once every
    [purchased_by] field is removed; a [purchased_by] field, where present,
    is the literal "You", on an item the viewer holds a Purchase on.  The
    answer to a viewer stays the same under any change of the owners of
    the wishlists and any change of the ledger that keeps, for each item,
    whether this viewer holds a Purchase on it: what other users purchased,
    and every user id of the store, is out of the answer. *)
Theorem shared_view_noninterference db e token c1 c2 :
  status (GetSharedWishlist db e c1 token) = status (GetSharedWishlist db e c2 token)
  /\ strip "purchased_by" (body (GetSharedWishlist db e c1 token)) =
     strip "purchased_by" (body (GetSharedWishlist db e c2 token))
  /\ (forall h v,
        In h (shared_view_items (GetSharedWishlist db e c1 token)) ->
        get "purchased_by" h = Some v ->
        v = JString "You"
        /\ exists itemID, get "id" h = Some (JString itemID)
                          /\ viewer_holds db c1 itemID = true)
  /\ (forall owner ps,
        (forall itemID,
           viewer_holds (set_purchases db ps) c1 itemID = viewer_holds db c1 itemID) ->
        GetSharedWishlist
          (mkDB (map (with_UserID owner) (wishlists db)) (items db) ps (shares db))
          e c1 token =
        GetSharedWishlist db e c1 token).
Proof.
  repeat split.
  - unfold GetSharedWishlist.
    destruct (First _ (shares db) _); auto.
    destruct (First _ (wishlists db) _); auto.
  - unfold GetSharedWishlist.
    destruct (First _ (shares db) _); auto.
    destruct (First _ (wishlists db) _) as [wishlist| |]; auto.
    assert (Hm : forall l,
      map (fun x => strip "purchased_by"
                      (JObject (marshal_SharedItem (sharedItem db c1 x)))) l =
      map (fun x => strip "purchased_by"
                      (JObject (marshal_SharedItem (sharedItem db c2 x)))) l).
    { intros l. apply map_ext. intros item.
      exact (eq_trans (strip_sharedItem db c1 item)
                      (eq_sym (strip_sharedItem db c2 item))). }
    simpl. rewrite !map_map, Hm. reflexivity.
  - destruct (shared_view_items_eq db e c1 token) as [E|[wid E]];
      rewrite E in H0; [destruct H0|].
    apply in_map_iff in H0. destruct H0 as (item & <- & _).
    rewrite get_purchased_by in H1.
    destruct (viewer_holds db c1 (Item.ID item)); congruence.
  - destruct (shared_view_items_eq db e c1 token) as [E|[wid E]];
      rewrite E in H0; [destruct H0|].
    apply in_map_iff in H0. destruct H0 as (item & <- & _).
    rewrite get_purchased_by in H1. exists (Item.ID item).
    rewrite marshal_sharedItem. split; [reflexivity|].
    destruct (viewer_holds db c1 (Item.ID item)); congruence.
  - intros owner ps Hv. unfold GetSharedWishlist, First. simpl.
    destruct (db_fails e 0); auto.
    destruct (find _ (shares db)) as [share|]; auto.
    destruct (db_fails e 1); auto.
    rewrite find_with_UserID.
    destruct (find _ (wishlists db)) as [wishlist|]; simpl; auto.
    assert (Hm : forall l,
      map (sharedItem
             (mkDB (map (with_UserID owner) (wishlists db)) (items db) ps (shares db))
             c1) l =
      map (sharedItem db c1) l).
    { intros l. apply map_ext. intros item.
      apply (sharedItem_only_viewer db). exact Hv. }
    unfold Items. simpl. now rewrite Hm.
Qed.

(** Bob and Alice view the shared list; Carol's further Purchase does not
    change what Bob gets. *)
Lemma shared_view_noninterference_witness :
  status (GetSharedWishlist db_bought (env_ok "x") (Some "bob") "T") =
  status (GetSharedWishlist db_bought (env_ok "x") (Some "alice") "T")
  /\ viewer_holds db_bought (Some "bob") "i1" = true
  /\ GetSharedWishlist db_bought_twice (env_ok "x") (Some "bob") "T" =
     GetSharedWishlist db_bought (env_ok "x") (Some "bob") "T".
Proof.
  destruct (shared_view_noninterference db_bought (env_ok "x") "T"
              (Some "bob") (Some "alice")) as (Hs & _ & Hyou & Hledger).
  split; [exact Hs|]. split.
  - destruct (Hyou [("id", JString "i1"); ("name", JString "Trek 520");
                    ("description", JString ""); ("purchased", JBool true);
                    ("purchased_by", JString "You")] (JString "You"))
      as (_ & itemID & Hid & Hholds).
    + left. reflexivity.
    + reflexivity.
    + injection Hid as <-. exact Hholds.
  - apply (Hledger Wishlist.UserID [bob_buys_trek; carol_buys_trek]).
    intros itemID. unfold viewer_holds, holds_purchase.
    change (purchases (set_purchases db_bought [bob_buys_trek; carol_buys_trek]))
      with [bob_buys_trek; carol_buys_trek].
    change (purchases db_bought) with [bob_buys_trek].
    cbn [existsb].
    change (String.eqb (Purchase.UserID carol_buys_trek) "bob") with false.
    now rewrite andb_false_r.
Defined.

(** On the route [/shared/:token] the handler never sees an identity. *)
Lemma shared_route_anonymous db e token who :
  fst (SetupRoutes db e (mkRequest (GET_shared_token token) who)) =
  GetSharedWishlist db e None token.
Proof. reflexivity. Qed.

(** C1.  What [GET /shared/:token] answers, as routed.  The route is
    registered outside the group that runs [AuthMiddleware], so the handler
    finds no ["userID"] for any caller: no item of any answer carries
    [purchased_by].  In the scenario of the spec Bob holds the Purchase on
    "Trek 520" and asks for the shared list with his credential: the answer
    has the item without [purchased_by], where the handler, given Bob's
    identity, writes [purchased_by] "You". *)
Theorem shared_route_omits_purchased_by :
  (forall db e token who,
     Forall (fun h => get "purchased_by" h = None)
       (shared_view_items
          (fst (SetupRoutes db e (mkRequest (GET_shared_token token) who)))))
  /\ holds_purchase db_bought "bob" "i1" = true
  /\ fst (SetupRoutes db_bought (env_ok "x")
            (mkRequest (GET_shared_token "T") (Some "bob"))) =
     JSON StatusOK (trek_shared [])
  /\ GetSharedWishlist db_bought (env_ok "x") (Some "bob") "T" =
     JSON StatusOK (trek_shared [("purchased_by", JString "You")]).
Proof.
  split; [|repeat split; reflexivity].
  intros db e token who. rewrite shared_route_anonymous.
  destruct (shared_view_items_eq db e None token) as [->|[wid ->]]; [constructor|].
  apply Forall_forall. intros h Hin. apply in_map_iff in Hin.
  destruct Hin as (item & <- & _). now rewrite get_purchased_by.
Qed.

(** * The owner view and the ownership checks *)

Lemma mentions_owner_items l :
  existsb (mentions "purchased_by") (map (fun item => JObject (owner_item item)) l)
  = false.
Proof. induction l as [|item l IH]; simpl; auto. Qed.

(** C2.  The owner view of [GetWishlist] does not depend on the ledger: it
    is the same answer whatever Purchases the store holds.  No answer of the
    handler has a [purchased_by] field anywhere, and a 200 answer lists, for
    each item of the wishlist, exactly id, name, description, the purchased
    flag and created_at. *)
Theorem owner_view_without_purchasers db e c wishlistID :
  (forall ps,
     GetWishlist (set_purchases db ps) e c wishlistID = GetWishlist db e c wishlistID)
  /\ mentions "purchased_by" (body (GetWishlist db e c wishlistID)) = false
  /\ (status (GetWishlist db e c wishlistID) = StatusOK ->
      exists wishlist,
        In wishlist (wishlists db)
        /\ Wishlist.ID wishlist = wishlistID
        /\ c = Some (Wishlist.UserID wishlist)
        /\ body (GetWishlist db e c wishlistID) =
           JObject
             [("id", JString wishlistID);
              ("title", JString (Wishlist.Title wishlist));
              ("description", JString (Wishlist.Description wishlist));
              ("created_at", JString (Wishlist.CreatedAt wishlist));
              ("items",
               JArray
                 (map (fun item =>
                         JObject [("id", JString (Item.ID item));
                                  ("name", JString (Item.Name item));
                                  ("description", JString (Item.Description item));
                                  ("purchased", JBool (Item.Purchased item));
                                  ("created_at", JString (Item.CreatedAt item))])
                      (Items db wishlistID)))]).
Proof.
  split; [reflexivity|].
  unfold GetWishlist. destruct c as [userID|]; [|split; [reflexivity|discriminate]].
  destruct (First _ (wishlists db) _) as [wishlist| |] eqn:HF;
    try (split; [reflexivity|discriminate]).
  destruct (String.eqb (Wishlist.UserID wishlist) userID) eqn:Hu; simpl;
    [|split; [reflexivity|discriminate]].
  split.
  - rewrite mentions_owner_items. reflexivity.
  - intros _. apply First_Found in HF. destruct HF as [_ HF].
    apply find_some in HF. destruct HF as [Hin Hid].
    apply String.eqb_eq in Hid, Hu. exists wishlist.
    rewrite Hid, Hu. auto.
Qed.

(** Alice reads her list after Bob's purchase, and after Carol's. *)
Lemma owner_view_without_purchasers_witness :
  status (GetWishlist db_bought (env_ok "x") (Some "alice") "w1") = StatusOK
  /\ GetWishlist db_bought_twice (env_ok "x") (Some "alice") "w1" =
     GetWishlist db_bought (env_ok "x") (Some "alice") "w1"
  /\ exists wishlist,
       body (GetWishlist db_bought (env_ok "x") (Some "alice") "w1") =
       JObject
         [("id", JString "w1");
          ("title", JString (Wishlist.Title wishlist));
          ("description", JString (Wishlist.Description wishlist));
          ("created_at", JString (Wishlist.CreatedAt wishlist));
          ("items",
           JArray [JObject [("id", JString "i1"); ("name", JString "Trek 520");
                            ("description", JString ""); ("purchased", JBool true);
                            ("created_at", JString "")]])].
Proof.
  destruct (owner_view_without_purchasers db_bought (env_ok "x") (Some "alice") "w1")
    as (Hledger & _ & Hview).
  split; [reflexivity|]. split.
  - exact (Hledger [bob_buys_trek; carol_buys_trek]).
  - destruct (Hview eq_refl) as (wishlist & _ & _ & _ & Hbody).
    exists wishlist. exact Hbody.
Defined.

(** C6.  On a stored wishlist, a caller with an identity other than the
    owner's gets no wishlist data from [GetWishlist], [AddItem] and
    [ShareWishlist], and the store is left as it was, whatever the storage
    does; when the lookup of the wishlist is answered the answer is 403,
    from [AddItem] once the body binds: a body that does not bind is
    answered 400 before the caller is looked at.  A call without identity
    is answered 401, "User not authenticated", by [AddItem] again after
    the body is bound. *)
Theorem non_owner_is_denied db e userID wishlistID wishlist :
  find (fun w => String.eqb (Wishlist.ID w) wishlistID) (wishlists db) = Some wishlist ->
  Wishlist.UserID wishlist <> userID ->
  (status (GetWishlist db e (Some userID) wishlistID) <> StatusOK
   /\ (forall raw,
         status (fst (AddItem db e (Some userID) wishlistID raw)) <> StatusOK
         /\ snd (AddItem db e (Some userID) wishlistID raw) = db)
   /\ status (fst (ShareWishlist db e (Some userID) wishlistID)) <> StatusOK
   /\ snd (ShareWishlist db e (Some userID) wishlistID) = db)
  /\ (db_fails e 0 = false ->
      GetWishlist db e (Some userID) wishlistID =
      JSON StatusForbidden (error "Access denied")
      /\ (forall raw,
            AddItem db e (Some userID) wishlistID raw =
            match ShouldBindJSON_AddItemInput raw with
            | Some input =>
                (JSON StatusForbidden (error "Only the creator can add items"), db)
            | None => (JSON StatusBadRequest (error (bind_error e)), db)
            end)
      /\ ShareWishlist db e (Some userID) wishlistID =
         (JSON StatusForbidden (error "Only the creator can share the wishlist"), db))
  /\ (GetWishlist db e None wishlistID =
      JSON StatusUnauthorized (error "User not authenticated")
      /\ (forall raw,
            AddItem db e None wishlistID raw =
            match ShouldBindJSON_AddItemInput raw with
            | Some input =>
                (JSON StatusUnauthorized (error "User not authenticated"), db)
            | None => (JSON StatusBadRequest (error (bind_error e)), db)
            end)
      /\ ShareWishlist db e None wishlistID =
         (JSON StatusUnauthorized (error "User not authenticated"), db)).
Proof.
  intros Hw Hne. apply String.eqb_neq in Hne.
  unfold GetWishlist, AddItem, ShareWishlist, First.
  split; [|split].
  - destruct (db_fails e 0); rewrite ?Hw; cbn iota; rewrite ?Hne;
      simpl; repeat split; try discriminate;
      destruct (ShouldBindJSON_AddItemInput raw); simpl; auto; discriminate.
  - intros ->. rewrite Hw. cbn iota. rewrite Hne. simpl.
    split; [reflexivity|]. split; [|reflexivity].
    intros raw. destruct (ShouldBindJSON_AddItemInput raw); reflexivity.
  - split; [reflexivity|]. split; [|reflexivity].
    intros raw. destruct (ShouldBindJSON_AddItemInput raw); reflexivity.
Qed.

(** Bob on Alice's wishlist. *)
Lemma non_owner_is_denied_witness :
  GetWishlist db_listed (env_ok "x") (Some "bob") "w1" =
  JSON StatusForbidden (error "Access denied")
  /\ AddItem db_listed (env_ok "i2") (Some "bob") "w1"
       (Some (AddItemInput.Build "Helmet" "")) =
     (JSON StatusForbidden (error "Only the creator can add items"), db_listed)
  /\ ShareWishlist db_listed (env_share "U" "s2") (Some "bob") "w1" =
     (JSON StatusForbidden (error "Only the creator can share the wishlist"), db_listed).
Proof.
  assert (Hfind : find (fun w => String.eqb (Wishlist.ID w) "w1") (wishlists db_listed)
                  = Some alice_list) by reflexivity.
  assert (Hne : Wishlist.UserID alice_list <> "bob") by discriminate.
  split; [|split].
  - destruct (non_owner_is_denied db_listed (env_ok "x") "bob" "w1" alice_list Hfind Hne)
      as (_ & H403 & _).
    exact (proj1 (H403 eq_refl)).
  - destruct (non_owner_is_denied db_listed (env_ok "i2") "bob" "w1" alice_list Hfind Hne)
      as (_ & H403 & _).
    exact (proj1 (proj2 (H403 eq_refl)) (Some (AddItemInput.Build "Helmet" ""))).
  - destruct (non_owner_is_denied db_listed (env_share "U" "s2") "bob" "w1" alice_list
                Hfind Hne) as (_ & H403 & _).
    exact (proj2 (proj2 (H403 eq_refl))).
Defined.

(** C6, as stated, at a body that does not bind: Bob, who does not own
    Alice's stored wishlist, posts an item without a name; the answer is
    400, not 403. *)
Lemma AddItem_non_owner_unbound_body :
  find (fun w => String.eqb (Wishlist.ID w) "w1") (wishlists db_listed) = Some alice_list
  /\ Wishlist.UserID alice_list <> "bob"
  /\ fst (AddItem db_listed (env_ok "i2") (Some "bob") "w1"
            (Some (AddItemInput.Build "" "a helmet"))) =
     JSON StatusBadRequest (error "invalid request")
  /\ status (fst (AddItem db_listed (env_ok "i2") (Some "bob") "w1"
                    (Some (AddItemInput.Build "" "a helmet")))) <> StatusForbidden.
Proof. repeat split; discriminate. Qed.

(** * Share links *)

Lemma find_token_None token ss :
  find (fun s => String.eqb (Share.Token s) token) ss = None <->
  forall s, In s ss -> Share.Token s <> token.
Proof.
  split.
  - intros Hf s Hin. apply String.eqb_neq. exact (find_none _ _ Hf s Hin).
  - intros Hall. destruct (find _ ss) as [s|] eqn:Hf; auto.
    apply find_some in Hf. destruct Hf as [Hin Heq].
    apply String.eqb_eq in Heq. now elim (Hall s Hin).
Qed.

Lemma find_with_ExpiresAt expiry token ss :
  find (fun s => String.eqb (Share.Token s) token) (map (with_ExpiresAt expiry) ss) =
  option_map (with_ExpiresAt expiry)
             (find (fun s => String.eqb (Share.Token s) token) ss).
Proof.
  induction ss as [|s ss IH]; simpl; auto.
  destruct (String.eqb (Share.Token s) token); auto.
Qed.

(** The tables of wishlists and shares only grow, at their end. *)
Lemma call_extends db e k :
  exists ws ss,
    wishlists (snd (call db e k)) = wishlists db ++ ws
    /\ shares (snd (call db e k)) = shares db ++ ss.
Proof.
  assert (Hsame : exists ws ss, wishlists db = wishlists db ++ ws
                                /\ shares db = shares db ++ ss)
    by (exists [], []; now rewrite !app_nil_r).
  destruct k as [c raw|c id|c id raw|c id]; simpl.
  - unfold CreateWishlist.
    destruct (ShouldBindJSON_CreateWishlistInput raw); simpl; auto.
    destruct c; simpl; auto.
    destruct (Create _ _ _ _) as [ws|] eqn:HC; simpl; auto.
    apply Create_Some in HC. destruct HC as (-> & _).
    eexists _, []. split; [reflexivity|now rewrite app_nil_r].
  - unfold ShareWishlist. destruct c; simpl; auto.
    destruct (First _ _ _); simpl; auto.
    destruct (negb _); simpl; auto.
    destruct (Create _ _ _ _) as [ss|] eqn:HC; simpl; auto.
    apply Create_Some in HC. destruct HC as (-> & _).
    eexists [], _. split; [now rewrite app_nil_r|reflexivity].
  - unfold AddItem.
    destruct (ShouldBindJSON_AddItemInput raw); simpl; auto.
    destruct c; simpl; auto.
    destruct (First _ _ _); simpl; auto.
    destruct (negb _); simpl; auto.
    destruct (Create _ _ _ _); simpl; auto.
  - unfold PurchaseItem. destruct c; simpl; auto.
    destruct (First _ (items db) _); simpl; auto.
    destruct (First _ (purchases db) _); simpl; auto;
      destruct (Create _ _ _ _); simpl; auto.
Qed.

Lemma call_all_extends calls : forall db,
  exists ws ss,
    wishlists (call_all db calls) = wishlists db ++ ws
    /\ shares (call_all db calls) = shares db ++ ss.
Proof.
  induction calls as [|[e k] calls IH]; simpl; intros db.
  - exists [], []. now rewrite !app_nil_r.
  - destruct (IH (snd (call db e k))) as (ws2 & ss2 & Hw2 & Hs2).
    destruct (call_extends db e k) as (ws1 & ss1 & Hw1 & Hs1).
    exists (ws1 ++ ws2), (ss1 ++ ss2).
    rewrite Hw2, Hs2, Hw1, Hs1, !app_assoc. auto.
Qed.

(** What a successful [ShareWishlist] did. *)
Lemma ShareWishlist_OK db e c wishlistID resp db' :
  ShareWishlist db e c wishlistID = (resp, db') -> status resp = StatusOK ->
  exists wishlist,
    c = Some (Wishlist.UserID wishlist)
    /\ find (fun w => String.eqb (Wishlist.ID w) wishlistID) (wishlists db)
       = Some wishlist
    /\ (forall s, In s (shares db) ->
          Share.ID s <> uuid_New e 1 /\ Share.Token s <> uuid_New e 0)
    /\ db' = set_shares db
               (shares db ++
                [Share.Build (uuid_New e 1) wishlistID (uuid_New e 0)
                             (time_Now e) zeroTime])
    /\ resp = JSON StatusOK
                (JObject [("shareable_link",
                           JString ("http://yourfrontend.com/shared/"
                                    ++ uuid_New e 0)%string)]).
Proof.
  unfold ShareWishlist. destruct c as [userID|]; [|intros [= <- <-]; discriminate].
  destruct (First _ (wishlists db) _) as [wishlist| |] eqn:HF;
    try (intros [= <- <-]; discriminate).
  destruct (String.eqb (Wishlist.UserID wishlist) userID) eqn:Hu; simpl;
    [|intros [= <- <-]; discriminate].
  destruct (Create _ _ _ _) as [ss|] eqn:HC; intros [= <- <-]; [|discriminate].
  intros _. apply First_Found in HF. destruct HF as [_ HF].
  apply Create_Some in HC. destruct HC as (-> & _ & Hfresh).
  apply String.eqb_eq in Hu. exists wishlist. subst userID.
  repeat split; auto.
  - specialize (Hfresh s H0). unfold share_clash in Hfresh. simpl in Hfresh.
    apply orb_false_iff in Hfresh. destruct Hfresh as [Hid _].
    apply String.eqb_neq in Hid. congruence.
  - specialize (Hfresh s H0). unfold share_clash in Hfresh. simpl in Hfresh.
    apply orb_false_iff in Hfresh. destruct Hfresh as [_ Htok].
    apply String.eqb_neq in Htok. congruence.
Qed.

(** C4, as stated, at a share whose expiry is set and past: the token of
    [link_old], which expired at 5, is resolved at 10 with a 200. *)
Lemma expired_share_still_resolves :
  find (fun s => String.eqb (Share.Token s) "OLD") (shares db_expired) = Some link_old
  /\ expired link_old (time_Now (env_ok "x"))
  /\ status (GetSharedWishlist db_expired (env_ok "x") None "OLD") = StatusOK.
Proof.
  split; [reflexivity|]. split; [|reflexivity].
  split; [discriminate|reflexivity].
Qed.

(** C4.  When the lookup of the share is answered, [GetSharedWishlist]
    answers 404, "Invalid or expired share link", exactly when no Share of
    the store has the token.  The expiry of a share and the instant of the
    request are not consulted: the answer is the same under any expiries
    and at any instant.  The token issued by a successful [ShareWishlist],
    stored without expiry, resolves with a 200 to the wishlist it was
    issued for, after any further handler calls, whenever the two lookups
    are answered. *)
Theorem share_token_resolution db e c token :
  (db_fails e 0 = false ->
   (GetSharedWishlist db e c token =
    JSON StatusNotFound (error "Invalid or expired share link")
    <-> forall s, In s (shares db) -> Share.Token s <> token))
  /\ (forall expiry now,
        GetSharedWishlist (with_expiries expiry db) (at_time now e) c token =
        GetSharedWishlist db e c token)
  /\ (forall e0 c0 wishlistID resp db1 calls,
        ShareWishlist db e0 c0 wishlistID = (resp, db1) ->
        status resp = StatusOK ->
        token = uuid_New e0 0 ->
        db_fails e 0 = false -> db_fails e 1 = false ->
        (exists share, In share (shares db1) /\ Share.Token share = token
                       /\ Share.ExpiresAt share = zeroTime)
        /\ status (GetSharedWishlist (call_all db1 calls) e c token) = StatusOK
        /\ exists fields,
             body (GetSharedWishlist (call_all db1 calls) e c token) =
             JObject [("wishlist", JObject (("id", JString wishlistID) :: fields))]).
Proof.
  split; [|split].
  - intros F0. rewrite <- find_token_None.
    unfold GetSharedWishlist, First. rewrite F0.
    destruct (find _ (shares db)) as [share|]; [|tauto].
    split; [|discriminate].
    destruct (db_fails e 1); [discriminate|].
    destruct (find _ (wishlists db)); discriminate.
  - intros expiry now. unfold GetSharedWishlist, First, with_expiries. simpl.
    rewrite find_with_ExpiresAt.
    destruct (db_fails e 0); auto.
    destruct (find _ (shares db)) as [share|]; simpl; auto.
  - intros e0 c0 wishlistID resp db1 calls HS HOK -> F0 F1.
    destruct (ShareWishlist_OK _ _ _ _ _ _ HS HOK)
      as (wishlist & _ & Hw & Hfresh & -> & _).
    set (share := Share.Build (uuid_New e0 1) wishlistID (uuid_New e0 0)
                              (time_Now e0) zeroTime).
    split.
    { exists share. simpl. split; [apply in_or_app; right; left|]; auto. }
    destruct (call_all_extends calls (set_shares db (shares db ++ [share])))
      as (ws & ss & HW & HSS).
    simpl in HW, HSS.
    assert (Hfs : find (fun s => String.eqb (Share.Token s) (uuid_New e0 0))
                       (shares db ++ [share]) = Some share).
    { rewrite find_app_None.
      - simpl. now rewrite String.eqb_refl.
      - apply find_token_None. intros s Hin. apply (Hfresh s Hin). }
    unfold GetSharedWishlist, First. rewrite F0, F1, HSS, HW.
    rewrite (find_app_Some _ _ ss _ Hfs). simpl.
    rewrite (find_app_Some _ _ ws _ Hw). simpl.
    apply find_some in Hw. destruct Hw as [_ Hid]. apply String.eqb_eq in Hid.
    rewrite Hid. split; [reflexivity|]. unfold marshal_SharedWishlistResponse.
    simpl. eauto.
Qed.

(** An unknown token, the token T under other expiries and at another
    instant, and T after Bob's purchase. *)
Lemma share_token_resolution_witness :
  GetSharedWishlist db_listed (env_ok "x") None "nope" =
  JSON StatusNotFound (error "Invalid or expired share link")
  /\ GetSharedWishlist (with_expiries (fun _ => 5%Z) db_listed)
                       (at_time 99%Z (env_ok "x")) None "T" =
     GetSharedWishlist db_listed (env_ok "x") None "T"
  /\ status (GetSharedWishlist
               (call_all db_listed [(env_ok "p1", CallPurchaseItem (Some "bob") "i1")])
               (env_ok "x") None "T") = StatusOK.
Proof.
  split; [|split].
  - destruct (share_token_resolution db_listed (env_ok "x") None "nope")
      as (H404 & _).
    apply (H404 eq_refl). intros s [<-|[]]. discriminate.
  - destruct (share_token_resolution db_listed (env_ok "x") None "T")
      as (_ & Hexp & _).
    exact (Hexp (fun _ => 5%Z) 99%Z).
  - destruct (share_token_resolution db_unshared (env_ok "x") None "T")
      as (_ & _ & Hfresh).
    destruct (Hfresh (env_share "T" "s1") (Some "alice") "w1"
                (JSON StatusOK
                   (JObject [("shareable_link",
                              JString "http://yourfrontend.com/shared/T")]))
                db_listed [(env_ok "p1", CallPurchaseItem (Some "bob") "i1")]
                eq_refl eq_refl eq_refl eq_refl eq_refl) as (_ & HOK & _).
    exact HOK.
Defined.

(** C8.  A successful [ShareWishlist] appends one Share to the table, for
    the wishlist asked for and with a token no Share of the store had, and
    changes nothing else: the Shares issued before are all still there, and
    every token that was resolved with a 200 before the call is resolved
    with the same answer after it. *)
Theorem ShareWishlist_keeps_older_links db e c wishlistID resp db' :
  ShareWishlist db e c wishlistID = (resp, db') -> status resp = StatusOK ->
  (exists share,
     Share.Token share = uuid_New e 0
     /\ Share.WishlistID share = wishlistID
     /\ (forall s, In s (shares db) -> Share.Token s <> Share.Token share)
     /\ shares db' = shares db ++ [share]
     /\ wishlists db' = wishlists db
     /\ items db' = items db
     /\ purchases db' = purchases db)
  /\ (forall e' c' token,
        status (GetSharedWishlist db e' c' token) = StatusOK ->
        GetSharedWishlist db' e' c' token = GetSharedWishlist db e' c' token).
Proof.
  intros HS HOK.
  destruct (ShareWishlist_OK _ _ _ _ _ _ HS HOK) as (wishlist & _ & _ & Hfresh & -> & _).
  split.
  - eexists. repeat split; simpl; try reflexivity.
    intros s Hin. apply (Hfresh s Hin).
  - intros e' c' token. unfold GetSharedWishlist, First. simpl.
    destruct (db_fails e' 0); [discriminate|].
    destruct (find _ (shares db)) as [share|] eqn:Hf; [|discriminate].
    intros _. now rewrite (find_app_Some _ _ _ _ Hf).
Qed.

(** Alice shares her list a second time: the link T is still served. *)
Lemma ShareWishlist_keeps_older_links_witness :
  shares (snd (ShareWishlist db_bought (env_share "U" "s2") (Some "alice") "w1")) =
  [link_T; link_U]
  /\ GetSharedWishlist
       (snd (ShareWishlist db_bought (env_share "U" "s2") (Some "alice") "w1"))
       (env_ok "x") None "T" =
     GetSharedWishlist db_bought (env_ok "x") None "T".
Proof.
  split; [reflexivity|].
  destruct (ShareWishlist_keeps_older_links db_bought (env_share "U" "s2")
              (Some "alice") "w1"
              (fst (ShareWishlist db_bought (env_share "U" "s2") (Some "alice") "w1"))
              (snd (ShareWishlist db_bought (env_share "U" "s2") (Some "alice") "w1"))
              eq_refl eq_refl) as (_ & Hold).
  apply Hold. reflexivity.
Defined.

(** * Further properties of the handlers *)

(** ** Errors, and what a call may change *)

(** X1.  Every handler that writes leaves the store as it found it when it
    answers anything but 200: a binding error, a missing identity, an
    unknown wishlist or item, a caller who is not the owner, a refused
    insert. *)
Theorem call_error_keeps_store db e k :
  status (fst (call db e k)) <> StatusOK -> snd (call db e k) = db.
Proof.
  destruct k as [c raw|c id|c id raw|c id]; simpl.
  - unfold CreateWishlist.
    destruct (ShouldBindJSON_CreateWishlistInput raw); simpl; auto.
    destruct c; simpl; auto.
    destruct (Create _ _ _ _); simpl; auto. intros Hne. now elim Hne.
  - unfold ShareWishlist. destruct c; simpl; auto.
    destruct (First _ _ _); simpl; auto.
    destruct (negb _); simpl; auto.
    destruct (Create _ _ _ _); simpl; auto. intros Hne. now elim Hne.
  - unfold AddItem.
    destruct (ShouldBindJSON_AddItemInput raw); simpl; auto.
    destruct c; simpl; auto.
    destruct (First _ _ _); simpl; auto.
    destruct (negb _); simpl; auto.
    destruct (Create _ _ _ _); simpl; auto. intros Hne. now elim Hne.
  - unfold PurchaseItem. destruct c; simpl; auto.
    destruct (First _ (items db) _); simpl; auto.
    destruct (First _ (purchases db) _); simpl; auto;
      destruct (Create _ _ _ _); simpl; auto; intros Hne; now elim Hne.
Qed.

(** Bob may not add to Alice's list: 403, and the store is as before. *)
Lemma call_error_keeps_store_witness :
  snd (call db_listed (env_ok "i2")
         (CallAddItem (Some "bob") "w1" (Some (AddItemInput.Build "Helmet" ""))))
  = db_listed.
Proof.
  apply (call_error_keeps_store db_listed (env_ok "i2")
           (CallAddItem (Some "bob") "w1" (Some (AddItemInput.Build "Helmet" "")))).
  vm_compute. discriminate.
Defined.

Lemma same_but_flag_refl a : same_but_flag a a.
Proof. repeat split; auto. Qed.

Lemma same_but_flag_trans a b c :
  same_but_flag a b -> same_but_flag b c -> same_but_flag a c.
Proof.
  intros (A1 & A2 & A3 & A4 & A5 & A6) (B1 & B2 & B3 & B4 & B5 & B6).
  repeat split; try congruence. auto.
Qed.

Lemma same_but_flag_mark id a : same_but_flag a (mark_purchased id a).
Proof.
  unfold mark_purchased. destruct (String.eqb (Item.ID a) id).
  - repeat split; auto.
  - apply same_but_flag_refl.
Qed.

Lemma Forall2_same_refl l : Forall2 same_but_flag l l.
Proof. induction l; constructor; auto using same_but_flag_refl. Qed.

Lemma Forall2_same_mark id l : Forall2 same_but_flag l (map (mark_purchased id) l).
Proof. induction l; simpl; constructor; auto using same_but_flag_mark. Qed.

(** What one call does to the tables. *)
Lemma call_effect db e k :
  snd (call db e k) = db
  \/ (exists w, snd (call db e k) = set_wishlists db (wishlists db ++ [w]))
  \/ (exists s, snd (call db e k) = set_shares db (shares db ++ [s]))
  \/ (exists it, snd (call db e k) = set_items db (items db ++ [it]))
  \/ (exists p kept,
        Forall2 same_but_flag (items db) kept
        /\ snd (call db e k) =
           mkDB (wishlists db) kept (purchases db ++ [p]) (shares db)).
Proof.
  destruct k as [c raw|c id|c id raw|c id]; simpl.
  - unfold CreateWishlist.
    destruct (ShouldBindJSON_CreateWishlistInput raw); simpl; auto.
    destruct c; simpl; auto.
    destruct (Create _ _ _ _) eqn:HC; simpl; auto.
    apply Create_Some in HC. destruct HC as (-> & _). right. left. eauto.
  - unfold ShareWishlist. destruct c; simpl; auto.
    destruct (First _ _ _); simpl; auto.
    destruct (negb _); simpl; auto.
    destruct (Create _ _ _ _) eqn:HC; simpl; auto.
    apply Create_Some in HC. destruct HC as (-> & _). right. right. left. eauto.
  - unfold AddItem.
    destruct (ShouldBindJSON_AddItemInput raw); simpl; auto.
    destruct c; simpl; auto.
    destruct (First _ _ _); simpl; auto.
    destruct (negb _); simpl; auto.
    destruct (Create _ _ _ _) eqn:HC; simpl; auto.
    apply Create_Some in HC. destruct HC as (-> & _).
    right. right. right. left. eauto.
  - unfold PurchaseItem. destruct c; simpl; auto.
    destruct (First _ (items db) _); simpl; auto.
    destruct (First _ (purchases db) _); simpl; auto;
      destruct (Create _ _ _ _) eqn:HC; simpl; auto;
      apply Create_Some in HC; destruct HC as (-> & _);
      right; right; right; right; eexists _, _; (split; [|reflexivity]);
      unfold Update_purchased; destruct (db_fails e 3);
      auto using Forall2_same_refl, Forall2_same_mark.
Qed.

(** X2.  One call adds at most one row to the store, at the end of its table,
    and removes none; the rows that were there are as they were, but for
    the [Purchased] flag of items, which may go from false to true and
    never back. *)
Theorem call_append_only db e k :
  exists ws its ps ss kept,
    wishlists (snd (call db e k)) = wishlists db ++ ws
    /\ items (snd (call db e k)) = kept ++ its
    /\ Forall2 same_but_flag (items db) kept
    /\ purchases (snd (call db e k)) = purchases db ++ ps
    /\ shares (snd (call db e k)) = shares db ++ ss
    /\ length ws + length its + length ps + length ss <= 1.
Proof.
  destruct (call_effect db e k)
    as [->|[[w ->]|[[s ->]|[[it ->]|(p & kept & Hk & ->)]]]]; simpl.
  - exists [], [], [], [], (items db). rewrite !app_nil_r.
    auto 10 using Forall2_same_refl.
  - exists [w], [], [], [], (items db). rewrite !app_nil_r.
    auto 10 using Forall2_same_refl.
  - exists [], [], [], [s], (items db). rewrite !app_nil_r.
    auto 10 using Forall2_same_refl.
  - exists [], [it], [], [], (items db). rewrite !app_nil_r.
    auto 10 using Forall2_same_refl.
  - exists [], [], [p], [], kept. rewrite !app_nil_r. auto 10.
Qed.

(** ** The handlers, case by case *)

Lemma ShouldBindJSON_AddItemInput_Some raw input :
  ShouldBindJSON_AddItemInput raw = Some input ->
  raw = Some input /\ AddItemInput.Name input <> "".
Proof.
  unfold ShouldBindJSON_AddItemInput. destruct raw as [i|]; [|discriminate].
  destruct (String.eqb (AddItemInput.Name i) "") eqn:E; [discriminate|].
  intros [= ->]. split; auto. now apply String.eqb_neq.
Qed.

Lemma ShouldBindJSON_CreateWishlistInput_Some raw input :
  ShouldBindJSON_CreateWishlistInput raw = Some input ->
  raw = Some input /\ CreateWishlistInput.Title input <> "".
Proof.
  unfold ShouldBindJSON_CreateWishlistInput. destruct raw as [i|]; [|discriminate].
  destruct (String.eqb (CreateWishlistInput.Title i) "") eqn:E; [discriminate|].
  intros [= ->]. split; auto. now apply String.eqb_neq.
Qed.

Lemma CreateWishlist_cases db e c raw :
  (status (fst (CreateWishlist db e c raw)) <> StatusOK
   /\ snd (CreateWishlist db e c raw) = db)
  \/ exists userID input,
       c = Some userID
       /\ ShouldBindJSON_CreateWishlistInput raw = Some input
       /\ (forall w, In w (wishlists db) -> Wishlist.ID w <> uuid_New e 0)
       /\ db_fails e 0 = false
       /\ CreateWishlist db e c raw =
          let wishlist :=
            Wishlist.Build (uuid_New e 0) userID (CreateWishlistInput.Title input)
                           (CreateWishlistInput.Description input) "" in
          (JSON StatusOK (JObject [("wishlist", marshal_Wishlist wishlist)]),
           set_wishlists db (wishlists db ++ [wishlist])).
Proof.
  unfold CreateWishlist.
  destruct (ShouldBindJSON_CreateWishlistInput raw) as [input|];
    [|left; split; [discriminate|reflexivity]].
  destruct c as [userID|]; [|left; split; [discriminate|reflexivity]].
  destruct (Create _ _ _ _) as [ws|] eqn:HC;
    [|left; split; [discriminate|reflexivity]].
  apply Create_Some in HC. destruct HC as (-> & F & Hfresh).
  right. exists userID, input. repeat split; auto.
  intros w Hw Heq. specialize (Hfresh w Hw). unfold wishlist_clash in Hfresh.
  simpl in Hfresh. apply String.eqb_neq in Hfresh. congruence.
Qed.

Lemma ShareWishlist_cases db e c wishlistID :
  (status (fst (ShareWishlist db e c wishlistID)) <> StatusOK
   /\ snd (ShareWishlist db e c wishlistID) = db)
  \/ exists wishlist,
       c = Some (Wishlist.UserID wishlist)
       /\ In wishlist (wishlists db) /\ Wishlist.ID wishlist = wishlistID
       /\ (forall s, In s (shares db) ->
             Share.ID s <> uuid_New e 1 /\ Share.Token s <> uuid_New e 0)
       /\ ShareWishlist db e c wishlistID =
          (JSON StatusOK
             (JObject [("shareable_link",
                        JString ("http://yourfrontend.com/shared/"
                                 ++ uuid_New e 0)%string)]),
           set_shares db
             (shares db ++ [Share.Build (uuid_New e 1) wishlistID (uuid_New e 0)
                                        (time_Now e) zeroTime])).
Proof.
  unfold ShareWishlist.
  destruct c as [userID|]; [|left; split; [discriminate|reflexivity]].
  destruct (First _ (wishlists db) _) as [wishlist| |] eqn:HF;
    try (left; split; [discriminate|reflexivity]).
  destruct (String.eqb (Wishlist.UserID wishlist) userID) eqn:Hu; simpl;
    [|left; split; [discriminate|reflexivity]].
  destruct (Create _ _ _ _) as [ss|] eqn:HC;
    [|left; split; [discriminate|reflexivity]].
  apply First_Found in HF. destruct HF as [_ HF]. apply find_some in HF.
  destruct HF as [Hin Hid]. apply String.eqb_eq in Hid, Hu.
  apply Create_Some in HC. destruct HC as (-> & _ & Hfresh).
  right. exists wishlist. subst userID. repeat split; auto.
  - intros Heq. specialize (Hfresh s H0). unfold share_clash in Hfresh.
    simpl in Hfresh. apply orb_false_iff in Hfresh. destruct Hfresh as [Hf _].
    apply String.eqb_neq in Hf. congruence.
  - intros Heq. specialize (Hfresh s H0). unfold share_clash in Hfresh.
    simpl in Hfresh. apply orb_false_iff in Hfresh. destruct Hfresh as [_ Hf].
    apply String.eqb_neq in Hf. congruence.
Qed.

Lemma AddItem_cases db e c wishlistID raw :
  (status (fst (AddItem db e c wishlistID raw)) <> StatusOK
   /\ snd (AddItem db e c wishlistID raw) = db)
  \/ exists input wishlist,
       ShouldBindJSON_AddItemInput raw = Some input
       /\ c = Some (Wishlist.UserID wishlist)
       /\ find (fun w => String.eqb (Wishlist.ID w) wishlistID) (wishlists db)
          = Some wishlist
       /\ db_fails e 0 = false
       /\ (forall it, In it (items db) -> Item.ID it <> uuid_New e 0)
       /\ AddItem db e c wishlistID raw =
          let item :=
            Item.Build (uuid_New e 0) wishlistID (AddItemInput.Name input)
                       (AddItemInput.Description input) false "" in
          (JSON StatusOK (JObject [("item", marshal_Item item)]),
           set_items db (items db ++ [item])).
Proof.
  unfold AddItem.
  destruct (ShouldBindJSON_AddItemInput raw) as [input|];
    [|left; split; [discriminate|reflexivity]].
  destruct c as [userID|]; [|left; split; [discriminate|reflexivity]].
  destruct (First _ (wishlists db) _) as [wishlist| |] eqn:HF;
    try (left; split; [discriminate|reflexivity]).
  destruct (String.eqb (Wishlist.UserID wishlist) userID) eqn:Hu; simpl;
    [|left; split; [discriminate|reflexivity]].
  destruct (Create _ _ _ _) as [its|] eqn:HC;
    [|left; split; [discriminate|reflexivity]].
  apply First_Found in HF. destruct HF as [F0 HF]. apply String.eqb_eq in Hu.
  apply Create_Some in HC. destruct HC as (-> & _ & Hfresh).
  right. exists input, wishlist. subst userID. repeat split; auto.
  intros it Hit Heq. specialize (Hfresh it Hit). unfold item_clash in Hfresh.
  simpl in Hfresh. apply String.eqb_neq in Hfresh. congruence.
Qed.

Lemma PurchaseItem_cases db e c itemID :
  (status (fst (PurchaseItem db e c itemID)) <> StatusOK
   /\ snd (PurchaseItem db e c itemID) = db)
  \/ exists userID item,
       c = Some userID
       /\ In item (items db) /\ Item.ID item = itemID
       /\ db_fails e 0 = false
       /\ (db_fails e 1 = false -> holds_purchase db userID itemID = false)
       /\ (forall p, In p (purchases db) -> Purchase.ID p <> uuid_New e 0)
       /\ PurchaseItem db e c itemID =
          (JSON StatusOK (JObject [("message", JString "Item marked as purchased")]),
           mkDB (wishlists db)
                (Update_purchased (items db) itemID (db_fails e 3))
                (purchases db
                 ++ [Purchase.Build (uuid_New e 0) itemID userID (time_text e)])
                (shares db)).
Proof.
  unfold PurchaseItem.
  destruct c as [userID|]; [|left; split; [discriminate|reflexivity]].
  destruct (First _ (items db) _) as [item| |] eqn:HI;
    try (left; split; [discriminate|reflexivity]).
  apply First_Found in HI. destruct HI as [F0 HI]. apply find_some in HI.
  destruct HI as [Hin Hid]. apply String.eqb_eq in Hid.
  assert (Hgo : forall ps,
    (db_fails e 1 = false -> holds_purchase db userID itemID = false) ->
    Create purchase_clash (purchases db)
           (Purchase.Build (uuid_New e 0) itemID userID (time_text e))
           (db_fails e 2) = Some ps ->
    exists userID0 item0,
      Some userID = Some userID0
      /\ In item0 (items db) /\ Item.ID item0 = itemID
      /\ db_fails e 0 = false
      /\ (db_fails e 1 = false -> holds_purchase db userID0 itemID = false)
      /\ (forall p, In p (purchases db) -> Purchase.ID p <> uuid_New e 0)
      /\ (JSON StatusOK (JObject [("message", JString "Item marked as purchased")]),
          set_items (set_purchases db ps)
            (Update_purchased (items (set_purchases db ps)) (Item.ID item)
                              (db_fails e 3))) =
         (JSON StatusOK (JObject [("message", JString "Item marked as purchased")]),
          mkDB (wishlists db)
               (Update_purchased (items db) itemID (db_fails e 3))
               (purchases db
                ++ [Purchase.Build (uuid_New e 0) itemID userID0 (time_text e)])
               (shares db))).
  { intros ps Hnone HC. apply Create_Some in HC. destruct HC as (-> & _ & Hfresh).
    exists userID, item. rewrite Hid. repeat split; auto.
    intros p Hp Heq. specialize (Hfresh p Hp). unfold purchase_clash in Hfresh.
    simpl in Hfresh. apply String.eqb_neq in Hfresh. congruence. }
  destruct (First _ (purchases db) _) as [p| |] eqn:HP;
    [left; split; [discriminate|reflexivity]| |];
    (destruct (Create _ _ _ _) as [ps|] eqn:HC;
     [|left; split; [discriminate|reflexivity]]);
    right; apply Hgo; auto.
  - intros F1. unfold First in HP. rewrite F1 in HP.
    destruct (find _ (purchases db)) eqn:Hf; [discriminate|].
    destruct (holds_purchase db userID itemID) eqn:Hh; auto.
    apply holds_purchase_find in Hh. destruct Hh as [q Hq]. congruence.
  - intros F1. unfold First in HP. rewrite F1 in HP.
    destruct (find _ (purchases db)); discriminate.
Qed.

(** ** Invariants of every run *)

Lemma reachable_ind_inv (ok : Env -> Call -> Prop) (P : DB -> Prop) :
  P emptyDB ->
  (forall db e k, ok e k -> P db -> P (snd (call db e k))) ->
  forall db, reachable ok db -> P db.
Proof. intros H0 Hstep db Hr. induction Hr; auto. Qed.

Lemma call_all_reaches (ok : Env -> Call -> Prop) calls : forall db,
  Forall (fun ek => ok (fst ek) (snd ek)) calls ->
  reachable ok db -> reachable ok (call_all db calls).
Proof.
  induction calls as [|[e k] calls IH]; simpl; intros db Hall Hr; auto.
  inversion Hall as [|? ? Hk Hrest]; subst. simpl in Hk.
  apply IH; auto. now apply reachable_call.
Qed.

Lemma NoDup_snoc {A : Type} (l : list A) x : NoDup l -> ~ In x l -> NoDup (l ++ [x]).
Proof.
  intros Hl Hx. apply NoDup_app; auto.
  - repeat constructor. intros [].
  - intros a Ha [<-|[]]. auto.
Qed.

Lemma map_ID_Update its id fails :
  map Item.ID (Update_purchased its id fails) = map Item.ID its.
Proof.
  unfold Update_purchased. destruct fails; auto.
  rewrite map_map. apply map_ext. intros it. apply mark_purchased_ID.
Qed.

Lemma Update_before its id fails it' :
  In it' (Update_purchased its id fails) ->
  exists it, In it its /\ same_but_flag it it'.
Proof.
  unfold Update_purchased. destruct fails.
  - intros Hin. exists it'. auto using same_but_flag_refl.
  - intros Hin. apply in_map_iff in Hin. destruct Hin as (it & <- & Hin).
    exists it. auto using same_but_flag_mark.
Qed.

Lemma Update_after its id fails it :
  In it its ->
  exists it', In it' (Update_purchased its id fails) /\ same_but_flag it it'.
Proof.
  unfold Update_purchased. destruct fails; intros Hin.
  - exists it. auto using same_but_flag_refl.
  - exists (mark_purchased id it). split; [now apply in_map|].
    apply same_but_flag_mark.
Qed.

Lemma call_keys_unique db e k : keys_unique db -> keys_unique (snd (call db e k)).
Proof.
  intros (Hw & Hi & Hp & Hs & Ht).
  destruct k as [c raw|c id|c id raw|c id]; simpl.
  - destruct (CreateWishlist_cases db e c raw)
      as [[_ ->]|(u & input & _ & _ & Hfresh & _ & ->)]; [repeat split; auto|].
    repeat split; auto. simpl. rewrite map_app. apply NoDup_snoc; auto.
    simpl. intros Hin. apply in_map_iff in Hin. destruct Hin as (w & Hid & Hin).
    now apply (Hfresh w Hin).
  - destruct (ShareWishlist_cases db e c id)
      as [[_ ->]|(w & _ & _ & _ & Hfresh & ->)]; [repeat split; auto|].
    repeat split; auto; simpl; rewrite map_app; apply NoDup_snoc; auto; simpl;
      intros Hin; apply in_map_iff in Hin; destruct Hin as (s & Hid & Hin);
      destruct (Hfresh s Hin); auto.
  - destruct (AddItem_cases db e c id raw)
      as [[_ ->]|(input & w & _ & _ & _ & _ & Hfresh & ->)];
      [repeat split; auto|].
    repeat split; auto. simpl. rewrite map_app. apply NoDup_snoc; auto.
    simpl. intros Hin. apply in_map_iff in Hin. destruct Hin as (it & Hid & Hin).
    now apply (Hfresh it Hin).
  - destruct (PurchaseItem_cases db e c id)
      as [[_ ->]|(u & item & _ & _ & _ & _ & _ & Hfresh & ->)];
      [repeat split; auto|].
    repeat split; auto; simpl.
    + now rewrite map_ID_Update.
    + rewrite map_app. apply NoDup_snoc; auto.
      simpl. intros Hin. apply in_map_iff in Hin. destruct Hin as (p & Hid & Hin).
      now apply (Hfresh p Hin).
Qed.

(** X3.  In every store reached from the empty one, whatever the environments
    of the calls, no two wishlists, items, purchases or shares have the same
    id, and no two shares the same token: an insert under a key that is
    taken is refused. *)
Theorem reachable_keys_unique db : reachable any_env db -> keys_unique db.
Proof.
  apply reachable_ind_inv.
  - repeat split; constructor.
  - intros d e k _. apply call_keys_unique.
Qed.

(** The scenario, run again with the same uuids after its own end: the
    four inserts are refused and the keys stay unique. *)
Lemma reachable_keys_unique_witness :
  call_all emptyDB (scenario_calls ++ scenario_calls) = db_bought
  /\ keys_unique (call_all emptyDB (scenario_calls ++ scenario_calls)).
Proof.
  split; [reflexivity|].
  apply (reachable_keys_unique (call_all emptyDB (scenario_calls ++ scenario_calls))).
  apply call_all_reaches.
  - repeat constructor.
  - apply reachable_empty.
Defined.

Lemma call_references_resolve db e k :
  references_resolve db -> references_resolve (snd (call db e k)).
Proof.
  intros (Hi & Hs & Hp).
  destruct k as [c raw|c id|c id raw|c id]; simpl.
  - destruct (CreateWishlist_cases db e c raw)
      as [[_ ->]|(u & input & _ & _ & _ & _ & ->)]; [repeat split; auto|].
    repeat split; auto; simpl.
    + intros it Hit. destruct (Hi it Hit) as (w & Hw & Hid).
      exists w. split; auto. apply in_or_app. auto.
    + intros s Hin. destruct (Hs s Hin) as (w & Hw & Hid).
      exists w. split; auto. apply in_or_app. auto.
  - destruct (ShareWishlist_cases db e c id)
      as [[_ ->]|(w & _ & Hw & Hid & _ & ->)]; [repeat split; auto|].
    repeat split; auto; simpl.
    intros s Hin. apply in_app_or in Hin. destruct Hin as [Hin|[<-|[]]]; auto.
    exists w. auto.
  - destruct (AddItem_cases db e c id raw)
      as [[_ ->]|(input & w & _ & _ & Hf & _ & _ & ->)];
      [repeat split; auto|].
    apply find_some in Hf. destruct Hf as [Hw Hid]. apply String.eqb_eq in Hid.
    repeat split; auto; simpl.
    + intros it Hin. apply in_app_or in Hin. destruct Hin as [Hin|[<-|[]]]; auto.
      exists w. auto.
    + intros p Hin. destruct (Hp p Hin) as (it & Hit & Hid').
      exists it. split; auto. simpl. apply in_or_app. auto.
  - destruct (PurchaseItem_cases db e c id)
      as [[_ ->]|(u & item & _ & Hitem & Hid & _ & _ & _ & ->)];
      [repeat split; auto|].
    repeat split; auto; simpl.
    + intros it' Hin. apply Update_before in Hin.
      destruct Hin as (it & Hit & _ & Hwid & _).
      destruct (Hi it Hit) as (w & Hw & Hid'). exists w. split; congruence.
    + intros p Hin. simpl in Hin. apply in_app_or in Hin.
      destruct Hin as [Hin|[<-|[]]]; simpl.
      * destruct (Hp p Hin) as (it & Hit & Hid').
        destruct (Update_after _ id (db_fails e 3) _ Hit) as (it' & Hit' & Hsame & _).
        exists it'. split; auto. congruence.
      * destruct (Update_after _ id (db_fails e 3) _ Hitem) as (it' & Hit' & Hsame & _).
        exists it'. split; auto. congruence.
Qed.

(** X4.  In every store reached from the empty one, whatever the environments
    of the calls, every item and every share is on a stored wishlist and
    every purchase on a stored item: the handlers insert a row only after
    they have found the row it refers to, and nothing is ever deleted. *)
Theorem reachable_references_resolve db :
  reachable any_env db -> references_resolve db.
Proof.
  apply reachable_ind_inv.
  - repeat split; intros ? [].
  - intros d e k _. apply call_references_resolve.
Qed.

Lemma reachable_references_resolve_witness :
  references_resolve (call_all emptyDB scenario_calls).
Proof.
  apply (reachable_references_resolve (call_all emptyDB scenario_calls)).
  apply call_all_reaches.
  - repeat constructor.
  - apply reachable_empty.
Defined.

Lemma find_wishlist_In id ws w :
  In w ws -> Wishlist.ID w = id ->
  exists w', find (fun w => String.eqb (Wishlist.ID w) id) ws = Some w'.
Proof.
  intros Hin Hid.
  apply (find_In_Some (fun w => String.eqb (Wishlist.ID w) id) ws w Hin).
  rewrite Hid. apply String.eqb_refl.
Qed.

(** X5.  On a store reached from the empty one, a token is either unknown, and
    answered 404, or resolved with a 200, whenever the two lookups of
    [GetSharedWishlist] are answered by the storage: the 500 "Error fetching
    wishlist" for a share without wishlist does not occur. *)
Theorem reachable_token_resolves db e c token :
  reachable any_env db ->
  db_fails e 0 = false -> db_fails e 1 = false ->
  status (GetSharedWishlist db e c token) =
  if existsb (fun s => String.eqb (Share.Token s) token) (shares db)
  then StatusOK else StatusNotFound.
Proof.
  intros Hr F0 F1.
  destruct (reachable_ind_inv any_env references_resolve) with (db := db)
    as (_ & Hs & _); auto.
  { repeat split; intros ? []. }
  { intros d e' k _. apply call_references_resolve. }
  unfold GetSharedWishlist, First. rewrite F0, F1.
  destruct (find _ (shares db)) as [share|] eqn:Hf.
  - apply find_some in Hf. destruct Hf as [Hin Htok].
    assert (He : existsb (fun s => String.eqb (Share.Token s) token) (shares db)
                 = true) by (apply existsb_exists; eauto).
    rewrite He. destruct (Hs share Hin) as (w & Hw & Hid).
    destruct (find_wishlist_In _ _ _ Hw Hid) as [w' ->]. reflexivity.
  - destruct (existsb _ (shares db)) eqn:He; auto.
    apply existsb_exists in He. destruct He as (s & Hin & Htok).
    now rewrite (find_none _ _ Hf s Hin) in Htok.
Qed.

Lemma reachable_token_resolves_witness :
  status (GetSharedWishlist (call_all emptyDB scenario_calls) (env_ok "x") None "T")
  = StatusOK
  /\ status (GetSharedWishlist (call_all emptyDB scenario_calls) (env_ok "x") None "U")
     = StatusNotFound.
Proof.
  assert (Hr : reachable any_env (call_all emptyDB scenario_calls)).
  { apply call_all_reaches; [repeat constructor|apply reachable_empty]. }
  split.
  - exact (reachable_token_resolves _ (env_ok "x") None "T" Hr eq_refl eq_refl).
  - exact (reachable_token_resolves _ (env_ok "x") None "U" Hr eq_refl eq_refl).
Defined.

Lemma call_one_purchase_each db e k :
  purchase_lookup_answered e k ->
  NoDup (map (fun p => (Purchase.ItemID p, Purchase.UserID p)) (purchases db)) ->
  NoDup (map (fun p => (Purchase.ItemID p, Purchase.UserID p))
             (purchases (snd (call db e k)))).
Proof.
  intros Hok Hnd.
  destruct k as [c raw|c id|c id raw|c id]; simpl.
  - destruct (CreateWishlist_cases db e c raw)
      as [[_ ->]|(u & input & _ & _ & _ & _ & ->)]; auto.
  - destruct (ShareWishlist_cases db e c id)
      as [[_ ->]|(w & _ & _ & _ & _ & ->)]; auto.
  - destruct (AddItem_cases db e c id raw)
      as [[_ ->]|(input & w & _ & _ & _ & _ & _ & ->)]; auto.
  - destruct (PurchaseItem_cases db e c id)
      as [[_ ->]|(u & item & _ & _ & _ & _ & Hnone & _ & ->)]; auto.
    simpl. rewrite map_app. apply NoDup_snoc; auto. simpl.
    intros Hin. apply in_map_iff in Hin. destruct Hin as (p & Hpair & Hin).
    injection Hpair as Hi Hu.
    assert (holds_purchase db u id = true)
      by (apply holds_purchase_true; eauto).
    rewrite (Hnone Hok) in H0. discriminate.
Qed.

(** X6.  While the requests are served one after another, none overlapping
    another, and the lookup of an existing purchase is answered in each
    [PurchaseItem], a user holds at most one Purchase on an item: in every
    store reached from the empty one by such a run of handler calls, no two
    rows of the ledger have the same item and user.  (The check and the
    insert are separate storage calls, with no transaction and no unique
    index on the pair: nothing is stated here for requests that overlap.) *)
Theorem reachable_one_purchase_each db :
  reachable purchase_lookup_answered db ->
  NoDup (map (fun p => (Purchase.ItemID p, Purchase.UserID p)) (purchases db)).
Proof.
  apply (reachable_ind_inv purchase_lookup_answered
           (fun db => NoDup (map (fun p => (Purchase.ItemID p, Purchase.UserID p))
                                 (purchases db)))).
  - constructor.
  - intros d e k. apply call_one_purchase_each.
Qed.

(** Bob purchases, then asks again under another uuid: one row. *)
Lemma reachable_one_purchase_each_witness :
  NoDup (map (fun p => (Purchase.ItemID p, Purchase.UserID p))
             (purchases (call_all emptyDB
                           (scenario_calls
                            ++ [(env_ok "p2", CallPurchaseItem (Some "bob") "i1")])))).
Proof.
  apply (reachable_one_purchase_each
           (call_all emptyDB
              (scenario_calls ++ [(env_ok "p2", CallPurchaseItem (Some "bob") "i1")]))).
  apply call_all_reaches.
  - repeat constructor.
  - apply reachable_empty.
Defined.

Lemma call_names_given db e k :
  (Forall (fun w => Wishlist.Title w <> "") (wishlists db)
   /\ Forall (fun it => Item.Name it <> "") (items db)) ->
  Forall (fun w => Wishlist.Title w <> "") (wishlists (snd (call db e k)))
  /\ Forall (fun it => Item.Name it <> "") (items (snd (call db e k))).
Proof.
  intros [Hw Hi].
  destruct k as [c raw|c id|c id raw|c id]; simpl.
  - destruct (CreateWishlist_cases db e c raw)
      as [[_ ->]|(u & input & _ & Hb & _ & _ & ->)]; auto.
    apply ShouldBindJSON_CreateWishlistInput_Some in Hb. destruct Hb as [_ Hb].
    split; auto. simpl. apply Forall_app. split; auto.
  - destruct (ShareWishlist_cases db e c id)
      as [[_ ->]|(w & _ & _ & _ & _ & ->)]; auto.
  - destruct (AddItem_cases db e c id raw)
      as [[_ ->]|(input & w & Hb & _ & _ & _ & _ & ->)]; auto.
    apply ShouldBindJSON_AddItemInput_Some in Hb. destruct Hb as [_ Hb].
    split; auto. simpl. apply Forall_app. split; auto.
  - destruct (PurchaseItem_cases db e c id)
      as [[_ ->]|(u & item & _ & _ & _ & _ & _ & _ & ->)]; auto.
    split; auto. simpl. apply Forall_forall. intros it' Hin.
    apply Update_before in Hin. destruct Hin as (it & Hit & _ & _ & Hn & _).
    rewrite Hn. rewrite Forall_forall in Hi. auto.
Qed.

(** X7.  In every store reached from the empty one, every wishlist has a title
    and every item a name: the fields tagged [binding:"required"] are never
    stored empty. *)
Theorem reachable_names_given db :
  reachable any_env db ->
  Forall (fun w => Wishlist.Title w <> "") (wishlists db)
  /\ Forall (fun it => Item.Name it <> "") (items db).
Proof.
  apply (reachable_ind_inv any_env
           (fun db => Forall (fun w => Wishlist.Title w <> "") (wishlists db)
                      /\ Forall (fun it => Item.Name it <> "") (items db))).
  - split; constructor.
  - intros d e k _. apply call_names_given.
Qed.

(** Alice posts an item without a name after the scenario: it is not stored. *)
Lemma reachable_names_given_witness :
  Forall (fun it => Item.Name it <> "")
         (items (call_all emptyDB
                   (scenario_calls
                    ++ [(env_ok "i2",
                         CallAddItem (Some "alice") "w1"
                                     (Some (AddItemInput.Build "" "unnamed")))]))).
Proof.
  apply (reachable_names_given
           (call_all emptyDB
              (scenario_calls
               ++ [(env_ok "i2",
                    CallAddItem (Some "alice") "w1"
                                (Some (AddItemInput.Build "" "unnamed")))]))).
  apply call_all_reaches.
  - repeat constructor.
  - apply reachable_empty.
Defined.

(** ** Nothing is taken back *)

Lemma Forall2_same_In l kept it :
  Forall2 same_but_flag l kept -> In it l ->
  exists it', In it' kept /\ same_but_flag it it'.
Proof.
  induction 1 as [|a b l kept Hab _ IH]; simpl; [tauto|].
  intros [<-|Hin]; eauto.
  destruct (IH Hin) as (it' & Hin' & Hs). eauto.
Qed.

(** X8.  After any sequence of handler calls every wishlist, purchase and share
    of the store is still there, unchanged, and every item is still there
    with the fields it had; an item whose [Purchased] flag was true has it
    true. *)
Theorem rows_persist calls : forall db,
  (forall w, In w (wishlists db) -> In w (wishlists (call_all db calls)))
  /\ (forall p, In p (purchases db) -> In p (purchases (call_all db calls)))
  /\ (forall s, In s (shares db) -> In s (shares (call_all db calls)))
  /\ (forall it, In it (items db) ->
        exists it', In it' (items (call_all db calls)) /\ same_but_flag it it').
Proof.
  induction calls as [|[e k] calls IH]; simpl; intros db.
  - repeat split; auto. intros it Hin. exists it. auto using same_but_flag_refl.
  - destruct (IH (snd (call db e k))) as (Hw & Hp & Hs & Hi).
    destruct (call_effect db e k)
      as [E|[[w E]|[[s E]|[[it0 E]|(p & kept & Hk & E)]]]]; rewrite E in *;
      simpl in *.
    + repeat split; auto.
    + repeat split; auto. intros w' Hin. apply Hw. apply in_or_app. auto.
    + repeat split; auto. intros s' Hin. apply Hs. apply in_or_app. auto.
    + repeat split; auto. intros it Hin. apply Hi. apply in_or_app. auto.
    + repeat split; auto.
      * intros p' Hin. apply Hp. apply in_or_app. auto.
      * intros it Hin. destruct (Forall2_same_In _ _ _ Hk Hin) as (it1 & Hin1 & S1).
        destruct (Hi it1 Hin1) as (it2 & Hin2 & S2).
        exists it2. split; auto. eapply same_but_flag_trans; eauto.
Qed.

(** After the scenario is run once more on its own end, Bob's Purchase and
    the purchased item are still in the store. *)
Lemma rows_persist_witness :
  In bob_buys_trek (purchases (call_all db_bought scenario_calls))
  /\ exists it', In it' (items (call_all db_bought scenario_calls))
                 /\ Item.ID it' = "i1" /\ Item.Purchased it' = true.
Proof.
  destruct (rows_persist scenario_calls db_bought) as (_ & Hp & _ & Hi).
  split.
  - apply Hp. left. reflexivity.
  - destruct (Hi trek_bought) as (it' & Hin & Hid & _ & _ & _ & _ & Hflag).
    + left. reflexivity.
    + exists it'. repeat split; auto.
Defined.

(** ** Purchases *)

(** X9.  A successful [PurchaseItem] changes who holds a Purchase on what at
    exactly one place: the caller now holds one on the item; for every
    other user and item the holdings are as before. *)
Theorem PurchaseItem_holdings db e c itemID :
  status (fst (PurchaseItem db e c itemID)) = StatusOK ->
  exists userID,
    c = Some userID
    /\ forall v i,
         holds_purchase (snd (PurchaseItem db e c itemID)) v i =
         holds_purchase db v i || (String.eqb itemID i && String.eqb userID v).
Proof.
  intros HOK.
  destruct (PurchaseItem_cases db e c itemID)
    as [[Hne _]|(u & item & -> & _ & _ & _ & _ & _ & E)]; [now elim Hne|].
  exists u. split; auto. intros v i. rewrite E. unfold holds_purchase. simpl.
  rewrite existsb_app. simpl. now rewrite orb_false_r.
Qed.

(** After Bob's purchase Bob holds the item, Carol does not. *)
Lemma PurchaseItem_holdings_witness :
  holds_purchase (snd (PurchaseItem db_listed (env_ok "p1") (Some "bob") "i1"))
                 "bob" "i1" = true
  /\ holds_purchase (snd (PurchaseItem db_listed (env_ok "p1") (Some "bob") "i1"))
                    "carol" "i1" = false.
Proof.
  destruct (PurchaseItem_holdings db_listed (env_ok "p1") (Some "bob") "i1" eq_refl)
    as (u & Hu & Hh).
  injection Hu as <-. rewrite !Hh. split; reflexivity.
Defined.

(** X10.  A [PurchaseItem] that succeeded is refused when it is repeated: the
    same caller asking again for the same item, in any environment whose
    two lookups are answered, gets 400 "Item already purchased by you", and
    the store stays as the first call left it. *)
Theorem PurchaseItem_repeated db e c itemID e' :
  status (fst (PurchaseItem db e c itemID)) = StatusOK ->
  db_fails e' 0 = false -> db_fails e' 1 = false ->
  PurchaseItem (snd (PurchaseItem db e c itemID)) e' c itemID =
  (JSON StatusBadRequest (error "Item already purchased by you"),
   snd (PurchaseItem db e c itemID)).
Proof.
  intros HOK F0 F1.
  destruct (PurchaseItem_cases db e c itemID)
    as [[Hne _]|(u & item & -> & Hin & Hid & _ & _ & _ & E)]; [now elim Hne|].
  rewrite E. cbn [snd].
  set (db' := mkDB (wishlists db)
                   (Update_purchased (items db) itemID (db_fails e 3))
                   (purchases db
                    ++ [Purchase.Build (uuid_New e 0) itemID u (time_text e)])
                   (shares db)).
  assert (Hh : holds_purchase db' u itemID = true).
  { unfold holds_purchase, db'. simpl. rewrite existsb_app. simpl.
    rewrite !String.eqb_refl. simpl. apply orb_true_r. }
  apply holds_purchase_find in Hh. destruct Hh as [q Hq].
  destruct (Update_after (items db) itemID (db_fails e 3) item Hin)
    as (item' & Hin' & Hid' & _).
  destruct (find_In_Some (fun it => String.eqb (Item.ID it) itemID)
              (items db') item' Hin') as [item'' Hf];
    [rewrite Hid', Hid; apply String.eqb_refl|].
  unfold PurchaseItem. rewrite F0, F1, !First_ok, Hf, Hq. reflexivity.
Qed.

(** Bob purchases and asks again. *)
Lemma PurchaseItem_repeated_witness :
  PurchaseItem (snd (PurchaseItem db_listed (env_ok "p1") (Some "bob") "i1"))
               (env_ok "p2") (Some "bob") "i1" =
  (JSON StatusBadRequest (error "Item already purchased by you"), db_bought).
Proof.
  exact (PurchaseItem_repeated db_listed (env_ok "p1") (Some "bob") "i1" (env_ok "p2")
           eq_refl eq_refl eq_refl).
Defined.

(** ** The two views side by side *)

Lemma owner_view_items_body s i t d ca elems :
  owner_view_items
    (JSON s (JObject [("id", i); ("title", t); ("description", d);
                      ("created_at", ca); ("items", JArray elems)])) =
  objects elems.
Proof. reflexivity. Qed.

Lemma GetSharedWishlist_OK db e c token :
  status (GetSharedWishlist db e c token) = StatusOK ->
  exists share wishlist,
    find (fun s => String.eqb (Share.Token s) token) (shares db) = Some share
    /\ find (fun w => String.eqb (Wishlist.ID w) (Share.WishlistID share))
            (wishlists db) = Some wishlist
    /\ shared_view_items (GetSharedWishlist db e c token) =
       map (fun item => marshal_SharedItem (sharedItem db c item))
           (Items db (Share.WishlistID share)).
Proof.
  unfold GetSharedWishlist.
  destruct (First _ (shares db) _) as [share| |] eqn:HS; try discriminate.
  destruct (First _ (wishlists db) _) as [wishlist| |] eqn:HW; try discriminate.
  intros _. apply First_Found in HS, HW. destruct HS as [_ HS], HW as [_ HW].
  exists share, wishlist. repeat split; auto.
  apply find_some in HW. destruct HW as [_ Hid]. apply String.eqb_eq in Hid.
  unfold shared_view_items. simpl.
  now rewrite objects_map_JObject, map_map, Hid.
Qed.

Lemma GetWishlist_OK db e c wishlistID :
  status (GetWishlist db e c wishlistID) = StatusOK ->
  owner_view_items (GetWishlist db e c wishlistID) =
  map owner_item (Items db wishlistID).
Proof.
  unfold GetWishlist. destruct c as [u|]; [|discriminate].
  destruct (First _ (wishlists db) _) as [wishlist| |] eqn:HW; try discriminate.
  destruct (negb _); [discriminate|]. intros _.
  apply First_Found in HW. destruct HW as [_ HW].
  apply find_some in HW. destruct HW as [_ Hid]. apply String.eqb_eq in Hid.
  now rewrite owner_view_items_body, objects_map_JObject, Hid.
Qed.


(** X13.  Given an identity, [GetSharedWishlist] lists the items of the wishlist
    in the order of the store, each with id, name, description and
    purchased flag, and writes [purchased_by] "You" on exactly the items
    the viewer holds a Purchase on; without identity no item has the
    field. *)
Theorem GetSharedWishlist_items db e c token :
  status (GetSharedWishlist db e c token) = StatusOK ->
  exists share wishlist,
    In share (shares db) /\ Share.Token share = token
    /\ In wishlist (wishlists db) /\ Wishlist.ID wishlist = Share.WishlistID share
    /\ shared_view_items (GetSharedWishlist db e c token) =
       map (fun item =>
              [("id", JString (Item.ID item));
               ("name", JString (Item.Name item));
               ("description", JString (Item.Description item));
               ("purchased", JBool (Item.Purchased item))]
              ++ (if viewer_holds db c (Item.ID item)
                  then [("purchased_by", JString "You")] else []))
           (Items db (Share.WishlistID share)).
Proof.
  intros HOK. destruct (GetSharedWishlist_OK db e c token HOK)
    as (share & wishlist & HS & HW & ->).
  apply find_some in HS, HW. destruct HS as [Hs Htok], HW as [Hw Hid].
  apply String.eqb_eq in Htok, Hid.
  exists share, wishlist. repeat split; auto.
  apply map_ext. intros item. apply marshal_sharedItem.
Qed.

(** Bob's shared view of the scenario, as the handler builds it when it is
    given his identity. *)
Lemma GetSharedWishlist_items_witness :
  shared_view_items (GetSharedWishlist db_bought (env_ok "x") (Some "bob") "T") =
  [[("id", JString "i1"); ("name", JString "Trek 520"); ("description", JString "");
    ("purchased", JBool true); ("purchased_by", JString "You")]].
Proof.
  destruct (GetSharedWishlist_items db_bought (env_ok "x") (Some "bob") "T" eq_refl)
    as (share & wishlist & Hin & _ & _ & _ & Hitems).
  destruct Hin as [<-|[]]. rewrite Hitems. reflexivity.
Defined.

(** X14.  The owner view of a wishlist and the shared view under one of its
    tokens list the same items in the same order, with the same id, name,
    description and purchased flag. *)
Theorem views_list_same_items db e1 c1 e2 c2 token share :
  find (fun s => String.eqb (Share.Token s) token) (shares db) = Some share ->
  status (GetWishlist db e1 c1 (Share.WishlistID share)) = StatusOK ->
  status (GetSharedWishlist db e2 c2 token) = StatusOK ->
  forall key,
    In key ["id"; "name"; "description"; "purchased"] ->
    map (get key) (owner_view_items (GetWishlist db e1 c1 (Share.WishlistID share))) =
    map (get key) (shared_view_items (GetSharedWishlist db e2 c2 token)).
Proof.
  intros Hs H1 H2 key Hkey.
  destruct (GetSharedWishlist_OK db e2 c2 token H2) as (share' & _ & Hs' & _ & ->).
  rewrite Hs in Hs'. injection Hs' as <-.
  rewrite (GetWishlist_OK _ _ _ _ H1), !map_map. apply map_ext. intros item.
  rewrite marshal_sharedItem.
  destruct Hkey as [<-|[<-|[<-|[<-|[]]]]]; reflexivity.
Qed.

Lemma views_list_same_items_witness :
  map (get "name")
      (owner_view_items (GetWishlist db_bought (env_ok "x") (Some "alice") "w1")) =
  map (get "name")
      (shared_view_items (GetSharedWishlist db_bought (env_ok "x") None "T")).
Proof.
  apply (views_list_same_items db_bought (env_ok "x") (Some "alice")
           (env_ok "x") None "T" link_T); try reflexivity.
  simpl. auto.
Defined.

(** ** Unknown ids *)

Lemma find_wishlist_None id ws :
  (forall w, In w ws -> Wishlist.ID w <> id) ->
  find (fun w => String.eqb (Wishlist.ID w) id) ws = None.
Proof.
  intros Hall. destruct (find _ ws) as [w|] eqn:Hf; auto.
  apply find_some in Hf. destruct Hf as [Hin Hid].
  apply String.eqb_eq in Hid. now elim (Hall w Hin).
Qed.

(** X15.  An id that no stored row has is answered 404, whoever asks: "Wishlist
    not found" by [GetWishlist], [ShareWishlist] and (once the body binds)
    [AddItem], "Item not found" by [PurchaseItem]; the store is left as it
    was.  The lookup comes before the ownership check. *)
Theorem unknown_id_not_found db e userID id :
  db_fails e 0 = false ->
  ((forall w, In w (wishlists db) -> Wishlist.ID w <> id) ->
   GetWishlist db e (Some userID) id =
   JSON StatusNotFound (error "Wishlist not found")
   /\ ShareWishlist db e (Some userID) id =
      (JSON StatusNotFound (error "Wishlist not found"), db)
   /\ forall raw input,
        ShouldBindJSON_AddItemInput raw = Some input ->
        AddItem db e (Some userID) id raw =
        (JSON StatusNotFound (error "Wishlist not found"), db))
  /\ ((forall it, In it (items db) -> Item.ID it <> id) ->
      PurchaseItem db e (Some userID) id =
      (JSON StatusNotFound (error "Item not found"), db)).
Proof.
  intros F0. split.
  - intros Hall. apply find_wishlist_None in Hall.
    unfold GetWishlist, ShareWishlist, AddItem. rewrite F0, !First_ok, Hall.
    repeat split. intros raw input ->. reflexivity.
  - intros Hall. unfold PurchaseItem. rewrite F0, First_ok.
    destruct (find _ (items db)) as [it|] eqn:Hf; auto.
    apply find_some in Hf. destruct Hf as [Hin Hid].
    apply String.eqb_eq in Hid. now elim (Hall it Hin).
Qed.

Lemma unknown_id_not_found_witness :
  GetWishlist db_bought (env_ok "x") (Some "alice") "w9" =
  JSON StatusNotFound (error "Wishlist not found")
  /\ PurchaseItem db_bought (env_ok "p9") (Some "carol") "i9" =
     (JSON StatusNotFound (error "Item not found"), db_bought).
Proof.
  destruct (unknown_id_not_found db_bought (env_ok "x") "alice" "w9" eq_refl)
    as [Hw _].
  destruct (unknown_id_not_found db_bought (env_ok "p9") "carol" "i9" eq_refl)
    as [_ Hi].
  split.
  - apply Hw. intros w [<-|[]]. discriminate.
  - apply Hi. intros it [<-|[]]. discriminate.
Defined.

(** * The dev-server proxy *)

Lemma substring_all s : substring 0 (String.length s) s = s.
Proof. induction s as [|c s IH]; simpl; [|rewrite IH]; reflexivity. Qed.

Lemma substring_split s : forall n,
  (substring 0 n s ++ substring n (String.length s - n) s)%string = s.
Proof.
  induction s as [|c s IH]; intros [|n]; simpl; auto.
  - now rewrite substring_all.
  - now rewrite IH.
Qed.

(** X16.  The [rewrite] of the [/api] proxy entry changes no path: a path that
    starts with [/api] is rebuilt from [/api] and its own rest, any other
    path is returned as it is.  What the dev server forwards is the path
    it received. *)
Theorem rewrite_changes_nothing path : rewrite path = path.
Proof.
  unfold rewrite. destruct (prefix "/api" path) eqn:E; auto.
  apply prefix_correct in E. simpl String.length in E.
  rewrite <- E at 1. apply substring_split.
Qed.

(** * The shared view and the flag *)

(** X17.  On a store reached from the empty one by calls whose flag update is
    carried out, an item that the shared view marks [purchased_by] is shown
    as purchased: the annotation never sits on an item with
    [purchased: false]. *)
Theorem annotated_items_are_purchased db e c token h :
  reachable flag_update_lands db ->
  In h (shared_view_items (GetSharedWishlist db e c token)) ->
  get "purchased_by" h <> None ->
  get "purchased" h = Some (JBool true).
Proof.
  intros Hr Hin Hby. destruct (reachable_ledger db Hr) as [Hflag _].
  destruct (shared_view_items_eq db e c token) as [E|[wid E]];
    rewrite E in Hin; [destruct Hin|].
  apply in_map_iff in Hin. destruct Hin as (item & <- & Hitem).
  apply filter_In in Hitem. destruct Hitem as [Hitem _].
  rewrite get_purchased_by in Hby. rewrite marshal_sharedItem.
  destruct (viewer_holds db c (Item.ID item)) eqn:Hv; [|now elim Hby].
  destruct c as [u|]; [|discriminate]. simpl in Hv.
  apply holds_purchase_true in Hv. destruct Hv as (p & Hp & Hid & _).
  assert (Hpur : Item.Purchased item = true) by (apply (Hflag item Hitem); eauto).
  simpl. now rewrite Hpur.
Qed.

Lemma annotated_items_are_purchased_witness :
  get "purchased"
      [("id", JString "i1"); ("name", JString "Trek 520"); ("description", JString "");
       ("purchased", JBool true); ("purchased_by", JString "You")]
  = Some (JBool true).
Proof.
  apply (annotated_items_are_purchased (call_all emptyDB scenario_calls)
           (env_ok "x") (Some "bob") "T").
  - apply call_all_reaches; [repeat constructor|apply reachable_empty].
  - left. reflexivity.
  - discriminate.
Defined.
